(** * wallarm/api-firewall: the validating proxy pipeline

    A shallow embedding of [internal/platform/validator/validate_response.go]
    (package [validator]: [ValidateResponse]) and of the proxy handler that
    drives it (package [handlers]: [getValidationHeader], [performProxy],
    [openapiWafHandler]).

    Go code mutates its arguments through pointers, returns early and logs.
    The embedding threads the mutated structure and a trace of the observable
    steps through a small state monad with early exit; every Go call whose
    code lives in another package (kin-openapi, fasthttp, net/http, the
    repository's own [web], [proxy] and [shadowAPI] packages) is a field of
    the [Library] class or of the [openapiWaf] record, as the Go struct keeps
    them behind interfaces. *)

From Stdlib Require Import ZArith String Ascii List Lia DecimalString.
From stdpp Require Import base option gmap strings list.

Set Warnings "-register-all".

Open Scope Z_scope.
Open Scope string_scope.

(** ** Constants of the packages the code imports *)

(** [net/http] status codes tested by [ValidateResponse]. *)
Module http.
Definition StatusMovedPermanently : Z := 301.
Definition StatusNotModified : Z := 304.
Definition StatusTemporaryRedirect : Z := 307.
Definition StatusPermanentRedirect : Z := 308.
End http.

(** [fasthttp]: the status codes the handler answers with, and the request
    context it works on.  A header is the list of pairs [VisitAll] goes
    through, [Add] appends to it, and the content type [ContentType ()]
    answers is kept beside it.  The user values are the path parameters the
    router stored, all of them strings. *)
Module fasthttp.
Definition StatusBadRequest : Z := 400.
Definition StatusBadGateway : Z := 502.
Definition StatusServiceUnavailable : Z := 503.
Definition StatusGatewayTimeout : Z := 504.

Record Request : Set := {
  req_Method : string;
  req_ContentType : string;
  req_Fields : list (string * string);
  req_Body : list Byte.byte
}.

Record Response : Set := {
  StatusCode : Z;
  resp_ContentType : string;
  resp_Fields : list (string * string);
  resp_Body : list Byte.byte
}.

Record RequestCtx : Set := {
  ID : Z;
  ctx_Request : Request;
  ctx_Response : Response;
  UserValues : list (string * string)
}.

Definition set_Request (r : Request) (ctx : RequestCtx) : RequestCtx :=
  {| ID := ID ctx; ctx_Request := r; ctx_Response := ctx_Response ctx;
     UserValues := UserValues ctx |}.

Definition set_Response (r : Response) (ctx : RequestCtx) : RequestCtx :=
  {| ID := ID ctx; ctx_Request := ctx_Request ctx; ctx_Response := r;
     UserValues := UserValues ctx |}.

(** [ctx.Request.Header.Add key value]. *)
Definition Request_Header_Add (key value : string) (ctx : RequestCtx) : RequestCtx :=
  set_Request
    {| req_Method := req_Method (ctx_Request ctx);
       req_ContentType := req_ContentType (ctx_Request ctx);
       req_Fields := (req_Fields (ctx_Request ctx) ++ [(key, value)])%list;
       req_Body := req_Body (ctx_Request ctx) |} ctx.

(** [ctx.Response.Header.Add key value]. *)
Definition Response_Header_Add (key value : string) (ctx : RequestCtx) : RequestCtx :=
  set_Response
    {| StatusCode := StatusCode (ctx_Response ctx);
       resp_ContentType := resp_ContentType (ctx_Response ctx);
       resp_Fields := (resp_Fields (ctx_Response ctx) ++ [(key, value)])%list;
       resp_Body := resp_Body (ctx_Response ctx) |} ctx.
End fasthttp.
Import fasthttp.

(** Modelled from the spec: the [web] package is not part of the sources.
    Section 3 of the specification gives the validation mode as the enum
    [{Disabled, LogOnly, Block}], and section 6 names the diagnostic header
    [APIFW-Validation-Status]. *)
Module web.
Inductive ValidationMode : Set :=
| ValidationDisable
| ValidationLog
| ValidationBlock.

Definition ValidationStatus : string := "APIFW-Validation-Status".
End web.

#[global] Instance ValidationMode_eq_dec : EqDecision web.ValidationMode.
Proof. solve_decision. Defined.

(** Modelled from the spec: [headerCT] is a constant of package [validator]
    declared in another file; the specification (section 4.1) names the
    header [Content-Type]. *)
Definition headerCT : string := "Content-Type".

(** [strconv.FormatInt (int64 n) 10], the key under which kin-openapi files a
    response: a decimal numeral with a leading minus sign for a negative. *)
Definition FormatInt (n : Z) : string := NilZero.string_of_int (Z.to_int n).

(** ** Errors

    Go's [error] values, as far as the code inspects them: the two sentinel
    errors [performProxy] compares with, the three error shapes
    [getValidationHeader] switches on, the schema error it looks for inside a
    request error, and every other error as its message.  A [ResponseError]
    also keeps a pointer to the validation input; no code path reads it back,
    so it is left out. *)

(** [openapi3.Parameter]; the code reads its name only. *)
Record openapi3_Parameter : Set := { Name : string }.

Inductive error : Set :=
| ErrDialTimeout
| ErrNoFreeConns
| errorString (msg : string)
| SchemaError (Reason : string)
| ResponseError (Reason : string) (Err : option error)
| RequestError (Param : option openapi3_Parameter) (RequestBody : bool)
    (Reason : string) (Err : option error)
| SecurityRequirementsError (SecurityRequirements : list (list string))
    (Errors : list error).

(** ** Bodies

    An [io.ReadCloser] is what [io.ReadAll] will get out of it: the bytes it
    yields and the error, if any, that ends the stream early. *)

Record ReadCloser : Set := {
  pending : list Byte.byte;
  failure : option error
}.

Definition ReadAll (r : ReadCloser) : list Byte.byte * option error :=
  (pending r, failure r).

(** [io.NopCloser (bytes.NewReader data)]. *)
Definition NopCloser (data : list Byte.byte) : ReadCloser :=
  {| pending := data; failure := None |}.

(** [http.Header]: canonical key to values. *)
Abbreviation Header := (gmap string (list string)).

(** ** Observable steps

    What a run does besides computing its result: the reads, calls and log
    entries, in the order the code performs them. *)

Inductive Event : Set :=
(* inside [ValidateResponse] *)
| EvReadAll (data : list Byte.byte) (err : option error)
| EvSetBodyBytes (data : list Byte.byte)
| EvDecodeBody (data : list Byte.byte) (err : option error)
| EvVisitJSON (err : option error)
| EvClose
(* inside the handler *)
| EvPoolGet (err : option error)
| EvPoolPut
| EvParserGet
| EvParserPut
| EvLog (msg : string) (err : option error)
| EvLogAddHeader (name value : string) (err : option error)
| EvClientDo (err : option error)
| EvShadowCheck (err : option error)
| EvConvertRequest (err : option error)
| EvValidateRequest (err : option error)
| EvValidateResponse
| EvGetValidationHeader (err : error) (vh : option string)
| EvRespondError (statusCode : Z) (statusHeader : option string).

(** ** A state monad with early exit

    A Go function body runs over the structure it mutates ([S]), emits
    events, and either goes on with a value or leaves the function: by a
    [return] statement or by a run-time panic (a nil dereference). *)

Inductive Outcome : Set :=
| Return (err : option error)
| Panic.

Inductive Step (A : Type) : Type :=
| Next (a : A)
| Exit (o : Outcome).
Arguments Next {A} a.
Arguments Exit {A} o.

Definition M (S A : Type) : Type := S -> Step A * S * list Event.

Definition ret {S A} (a : A) : M S A := fun s => (Next a, s, []).

Definition bind {S A B} (m : M S A) (k : A -> M S B) : M S B :=
  fun s =>
    match m s with
    | (Next a, s1, t1) =>
        match k a s1 with
        | (r, s2, t2) => (r, s2, (t1 ++ t2)%list)
        end
    | (Exit o, s1, t1) => (Exit o, s1, t1)
    end.

Declare Scope go_scope.
Delimit Scope go_scope with go.
Notation "x <- m ;; k" := (bind m (fun x => k))
  (at level 100, m at next level, right associativity) : go_scope.
Notation "m ;; k" := (bind m (fun _ => k))
  (at level 100, right associativity) : go_scope.

Definition get {S} : M S S := fun s => (Next s, s, []).
Definition put {S} (s : S) : M S unit := fun _ => (Next tt, s, []).
Definition modify {S} (f : S -> S) : M S unit := fun s => (Next tt, f s, []).
Definition emit {S} (e : Event) : M S unit := fun s => (Next tt, s, [e]).

(** [return err]. *)
Definition return_ {S A} (err : option error) : M S A :=
  fun s => (Exit (Return err), s, []).

(** A nil pointer dereference. *)
Definition panic {S A} : M S A := fun s => (Exit Panic, s, []).

(** The value behind a pointer; dereferencing nil panics. *)
Definition deref {S A} (p : option A) : M S A :=
  match p with
  | Some a => ret a
  | None => panic
  end.

(** [p != nil]. *)
Definition nonnil {A} (p : option A) : bool :=
  match p with
  | Some _ => true
  | None => false
  end.

(** [if b { m }], where [m] may leave the function. *)
Definition when {S} (b : bool) (m : M S unit) : M S unit :=
  if b then m else ret tt.

(** [defer]: the event of the deferred call is emitted when the rest of the
    body, [m], is left, however it is left. *)
Definition defer {S A} (e : Event) (m : M S A) : M S A :=
  fun s =>
    match m s with
    | (r, s1, t1) => (r, s1, (t1 ++ [e])%list)
    end.

(** A finished call: how the function was left, the structure it worked on
    as it leaves it, and what it did. *)
Record Result (S : Type) : Type := {
  outcome : Outcome;
  final : S;
  trace : list Event
}.
Arguments outcome {S} r.
Arguments final {S} r.
Arguments trace {S} r.

(** Runs a body whose last statement returns its value. *)
Definition run {S} (m : M S (option error)) (s : S) : Result S :=
  match m s with
  | (Next err, s1, t) => {| outcome := Return err; final := s1; trace := t |}
  | (Exit o, s1, t) => {| outcome := o; final := s1; trace := t |}
  end.

(** ** The types kin-openapi keeps opaque for this code *)

Class Domain : Type := {
  Schema : Type;          (* a compiled [openapi3.Schema] *)
  Value : Type;           (* a decoded body, Go's [interface{}] *)
  FastjsonValue : Type;   (* [*fastjson.Value] *)
  Parser : Type;          (* [*fastjson.Parser] *)
  URL : Type              (* what else a converted [http.Request] carries *)
}.

Inductive SchemaValidationOption : Set :=
| VisitAsRequest
| MultiErrors.

Section Model.
Context `{Domain}.

(** *** The OpenAPI model (package [openapi3]) *)

Record MediaType : Type := {
  mt_Schema : option Schema;               (* [*SchemaRef], nil when absent *)
  mt_Encoding : gmap string string
}.

Record Response : Type := {
  Content : gmap string MediaType
}.

Record ResponseRef : Type := {
  rr_Value : option Response               (* nil until resolved *)
}.

(** [Responses] is Go's [map[string]*ResponseRef], keyed by the status in
    decimal or by ["default"]. *)
Record Operation : Type := {
  Responses : gmap string ResponseRef
}.

Record Route : Type := {
  route_Operation : Operation
}.

Definition Responses_Get (responses : gmap string ResponseRef) (status : Z)
  : option ResponseRef :=
  responses !! FormatInt status.

Definition Responses_Default (responses : gmap string ResponseRef)
  : option ResponseRef :=
  responses !! "default".

(** *** Validation inputs (package [openapi3filter]) *)

Record Options : Set := {
  ExcludeRequestBody : bool;
  ExcludeResponseBody : bool;
  IncludeResponseStatus : bool;
  MultiError : bool
}.

Record Request : Type := {
  Method : string;
  req_Header : Header;
  req_URL : URL
}.

Record RequestValidationInput : Type := {
  rvi_Request : Request;
  PathParams : option (gmap string string);
  rvi_Route : option Route                 (* nil when the router found none *)
}.

Record ResponseValidationInput : Type := {
  input_Request : RequestValidationInput;
  Status : Z;
  input_Header : Header;
  Body : option ReadCloser;
  input_Options : option Options
}.

Definition set_Body (b : option ReadCloser) (input : ResponseValidationInput)
  : ResponseValidationInput :=
  {| input_Request := input_Request input;
     Status := Status input;
     input_Header := input_Header input;
     Body := b;
     input_Options := input_Options input |}.

(** [input.SetBodyBytes data]. *)
Definition SetBodyBytes (data : list Byte.byte) (input : ResponseValidationInput)
  : ResponseValidationInput :=
  set_Body (Some (NopCloser data)) input.

(** [openapi3.SecurityScheme] and [openapi3filter.AuthenticationInput], as
    the authentication function reads them. *)
Record SecurityScheme : Set := {
  ss_Type : string;
  ss_Scheme : string;
  ss_In : string;
  ss_Name : string
}.

Record AuthenticationInput : Type := {
  auth_Request : RequestValidationInput;
  auth_SecurityScheme : SecurityScheme;
  Scopes : list string
}.

(** *** The calls into other packages *)

Class Library : Type := {
  (* the package variable [openapi3filter.DefaultOptions] *)
  DefaultOptions : Options;
  (* [textproto.CanonicalMIMEHeaderKey] *)
  CanonicalMIMEHeaderKey : string -> string;
  (* [openapi3.Content.Get] *)
  Content_Get : gmap string MediaType -> string -> option MediaType;
  (* [strconv.Quote], the [%q] verb *)
  Quote : string -> string;
  (* [decodeBody], another file of package [validator]; it reads a buffer of
     its own over [data] *)
  decodeBody : list Byte.byte -> Header -> Schema -> gmap string string ->
               Parser -> (string * Value) + error;
  (* the type assertion of [value] to a fastjson value *)
  asFastjson : Value -> option FastjsonValue;
  (* [convertToMap], another file of package [validator] *)
  convertToMap : FastjsonValue -> Value;
  (* the method [VisitJSON] of [openapi3.Schema] *)
  VisitJSON : Schema -> Value -> list SchemaValidationOption -> option error;
  (* the method [Error] of an error: its message *)
  Error : error -> string;
  (* [strings.ToLower] *)
  ToLower : string -> string;
  (* [req.URL.Query ().Get name] *)
  Query_Get : URL -> string -> string;
  (* [req.Cookie name], for the error it answers *)
  Cookie : Request -> string -> option error;
  (* [fasthttpadaptor.ConvertRequest ctx &req false] *)
  ConvertRequest : fasthttp.RequestCtx -> Request + error;
  (* [validator.ValidateRequest], another file of package [validator]; the
     authentication function travels in the input's options *)
  ValidateRequest : fasthttp.RequestCtx -> RequestValidationInput ->
                    (AuthenticationInput -> option error) -> Parser -> option error;
  (* [web.RespondError ctx statusCode statusHeader], of the repository's
     package [web], which is not part of the sources: the context as it
     leaves it and the error it returns *)
  RespondError : fasthttp.RequestCtx -> Z -> option string ->
                 fasthttp.RequestCtx * option error
}.

End Model.

(** ** [ValidateResponse] *)

Section Validator.
Context `{Domain} `{!Library}.
Open Scope go_scope.

(** [http.Header.Get]: the first value filed under the canonical key. *)
Definition Header_Get (h : Header) (key : string) : string :=
  match h !! CanonicalMIMEHeaderKey key with
  | Some (v :: _) => v
  | _ => EmptyString
  end.

(** The statuses of the second [switch]. *)
Definition never_validated (status : Z) : bool :=
  bool_decide (status = http.StatusNotModified)
  || bool_decide (status = http.StatusPermanentRedirect)
  || bool_decide (status = http.StatusTemporaryRedirect)
  || bool_decide (status = http.StatusMovedPermanently).

(** The second half of [ValidateResponse], from the test of the entry the
    lookup found ([responseRef], nil when there is none) to the end. *)
Definition validateResponseRef (options : Options)
    (responseRef : option ResponseRef) (jsonParser : Parser)
  : M ResponseValidationInput (option error) :=
  input <- get ;;
  responseRef <-
    match responseRef with
    | Some r => ret r
    | None =>
        (* By default, status that is not documented is allowed. *)
        if negb (IncludeResponseStatus options) then return_ None
        else return_ (Some (ResponseError "status is not supported" None))
    end ;;
  response <-
    match rr_Value responseRef with
    | Some r => ret r
    | None => return_ (Some (ResponseError "response has not been resolved" None))
    end ;;
  (* A user turned off validation of a response's body. *)
  when (ExcludeResponseBody options) (return_ None) ;;
  let content := Content response in
  (* An operation does not contains a validation schema for responses with
     this status code. *)
  when (bool_decide (size content = 0%nat) || ExcludeResponseBody options)
    (return_ None) ;;
  let inputMIME := Header_Get (input_Header input) headerCT in
  contentType <-
    match Content_Get content inputMIME with
    | Some ct => ret ct
    | None =>
        return_ (Some (ResponseError
          ("response header Content-Type has unexpected value: " ++ Quote inputMIME)
          None))
    end ;;
  schema <-
    match mt_Schema contentType with
    | Some sc => ret sc
    | None => return_ None
    end ;;
  (* Read response's body. *)
  let body := Body input in
  (* Response would contain partial or empty input body after we begin
     reading.  Ensure that this doesn't happen. *)
  modify (set_Body None) ;;
  (* Ensure we close the reader *)
  body <- deref body ;;
  defer EvClose (
    (* Read all *)
    let '(data, err) := ReadAll body in
    emit (EvReadAll data err) ;;
    when (nonnil err)
      (return_ (Some (ResponseError "failed to read response body" err))) ;;
    (* Put the data back into the response. *)
    modify (SetBodyBytes data) ;;
    emit (EvSetBodyBytes data) ;;
    input <- get ;;
    value <-
      match decodeBody data (input_Header input) schema (mt_Encoding contentType)
              jsonParser with
      | inl (_, value) => emit (EvDecodeBody data None) ;; ret value
      | inr err =>
          emit (EvDecodeBody data (Some err)) ;;
          return_ (Some (ResponseError "failed to decode response body" (Some err)))
      end ;;
    let opts :=
      VisitAsRequest :: (if MultiError options then [MultiErrors] else []) in
    (* prepare map[string]interface{} structure for json validation *)
    let value :=
      match asFastjson value with
      | Some fastjsonValue => convertToMap fastjsonValue
      | None => value
      end in
    (* Validate data with the schema. *)
    let err := VisitJSON schema value opts in
    emit (EvVisitJSON err) ;;
    when (nonnil err)
      (return_ (Some (ResponseError "response body doesn't match the schema" err))) ;;
    ret None).

Definition ValidateResponse_body (jsonParser : Parser)
  : M ResponseValidationInput (option error) :=
  input <- get ;;
  let req := rvi_Request (input_Request input) in
  when (bool_decide (Method req = "HEAD")) (return_ None) ;;
  let status := Status input in
  (* These status codes will never be validated. *)
  when (never_validated status) (return_ None) ;;
  let route := rvi_Route (input_Request input) in
  let options := default DefaultOptions (input_Options input) in
  (* Find input for the current status *)
  route <- deref route ;;
  let responses := Responses (route_Operation route) in
  when (bool_decide (size responses = 0%nat)) (return_ None) ;;
  let responseRef :=
    match Responses_Get responses status with
    | Some r => Some r
    | None => Responses_Default responses
    end in
  validateResponseRef options responseRef jsonParser.

Definition ValidateResponse (input : ResponseValidationInput) (jsonParser : Parser)
  : Result ResponseValidationInput :=
  run (ValidateResponse_body jsonParser) input.

End Validator.

(** ** The handler (package [handlers]) *)

(** [strings.Split s ";"] at index 0: what stands before the first [;]. *)
Fixpoint SplitHead (s : string) : string :=
  match s with
  | EmptyString => EmptyString
  | String c rest =>
      if Ascii.eqb c ";" then EmptyString else String c (SplitHead rest)
  end.

(** [strings.TrimSuffix s suffix]. *)
Fixpoint TrimSuffix (s suffix : string) : string :=
  if String.eqb s suffix then EmptyString
  else match s with
       | EmptyString => EmptyString
       | String c rest => String c (TrimSuffix rest suffix)
       end.

(** [s != ""]. *)
Definition nonempty (s : string) : bool := negb (String.eqb s EmptyString).

(** The cause of a failed backend call as a gateway status: the [switch] of
    [performProxy]. *)
Definition gateway_status (err : error) : Z :=
  match err with
  | ErrDialTimeout => fasthttp.StatusGatewayTimeout
  | ErrNoFreeConns => fasthttp.StatusServiceUnavailable
  | _ => fasthttp.StatusBadGateway
  end.


Section Handlers.
Context `{Domain} `{!Library}.
Open Scope go_scope.

(** [proxy.HTTPClient]: [Do] works on the context's request and response
    through pointers and answers an error. *)
Record HTTPClient : Type := {
  Do : fasthttp.Request -> fasthttp.Response ->
       fasthttp.Request * fasthttp.Response * option error
}.

Record APIFWConfiguration : Set := {
  RequestValidation : web.ValidationMode;
  ResponseValidation : web.ValidationMode;
  AddValidationStatusHeader : bool;
  CustomBlockStatusCode : Z
}.

(** The struct [openapiWaf].  Its collaborators answer one call each per
    request: [proxyPool] is what [proxyPool.Get ()] answers, [parserPool] the
    parser [parserPool.Get ()] hands out, [shadowAPI] the method [Check], and
    [oauthValidator] the method [Validate] of a validator that may be nil.
    The logger is the trace. *)
Record openapiWaf : Type := {
  route : option Route;
  proxyPool : HTTPClient + error;
  cfg : APIFWConfiguration;
  pathParamLength : Z;
  parserPool : Parser;
  oauthValidator : option (string -> list string -> option error);
  shadowAPI : fasthttp.RequestCtx -> option error
}.

(** EXPERIMENTAL feature: the [APIFW-Validation-Status] header value.  A
    security requirement is the list of its keys in the order the [range]
    over the map yields them. *)
Definition getValidationHeader (ctx : fasthttp.RequestCtx) (err : error)
  : option string :=
  let reason := "unknown" in
  match err with
  | ResponseError Reason _ =>
      let reason := if nonempty Reason then Reason else reason in
      let id := "response-" ++ FormatInt (StatusCode (ctx_Response ctx)) ++ "-"
                ++ SplitHead (resp_ContentType (ctx_Response ctx)) in
      Some (id ++ ":" ++ reason ++ ":response")
  | RequestError Param RequestBody Reason Err =>
      let reason := if nonempty Reason then Reason else reason in
      match Param with
      | Some parameter =>
          let paramName := "request-parameter" in
          let '(reason, paramName) :=
            if String.eqb Reason EmptyString then
              (match Err with
               | Some (SchemaError schemaReason) =>
                   if nonempty schemaReason then schemaReason else reason
               | _ => reason
               end,
               Name parameter)
            else (reason, paramName) in
          Some ("request-parameter:" ++ reason ++ ":" ++ paramName)
      | None =>
          if RequestBody then
            let id := "request-body-" ++ SplitHead (req_ContentType (ctx_Request ctx)) in
            Some (id ++ ":" ++ reason ++ ":request-body")
          else None
      end
  | SecurityRequirementsError SecurityRequirements Errors =>
      let secSchemeName :=
        fold_left
          (fun acc scheme => fold_left (fun acc key => acc ++ key ++ ",") scheme acc)
          SecurityRequirements EmptyString in
      let secErrors :=
        fold_left (fun acc secError => acc ++ Error secError ++ ",")
          Errors EmptyString in
      Some ("security-requirements-" ++ TrimSuffix secSchemeName "," ++ ":"
            ++ TrimSuffix secErrors "," ++ ":" ++ TrimSuffix secSchemeName ",")
  | _ => None
  end.

(** [web.RespondError ctx statusCode statusHeader] on the handler's context. *)
Definition respondError (statusCode : Z) (statusHeader : option string)
  : M fasthttp.RequestCtx (option error) :=
  ctx <- get ;;
  let '(ctx', err) := RespondError ctx statusCode statusHeader in
  put ctx' ;;
  emit (EvRespondError statusCode statusHeader) ;;
  ret err.

(** Proxy request *)
Definition performProxy (client : HTTPClient)
  : M fasthttp.RequestCtx (option error) :=
  ctx <- get ;;
  let '(req, resp, err) := Do client (ctx_Request ctx) (ctx_Response ctx) in
  put (set_Response resp (set_Request req ctx)) ;;
  emit (EvClientDo err) ;;
  match err with
  | Some e =>
      emit (EvLog "error while proxying request" err) ;;
      match e with
      | ErrDialTimeout => respondError fasthttp.StatusGatewayTimeout None
      | ErrNoFreeConns => respondError fasthttp.StatusServiceUnavailable None
      | _ => respondError fasthttp.StatusBadGateway None
      end
  | None => ret None
  end.

(** The authentication function the handler puts into the request
    validation input's options. *)
Definition AuthenticationFunc (s : openapiWaf) (input : AuthenticationInput)
  : option error :=
  let scheme := auth_SecurityScheme input in
  let req := rvi_Request (auth_Request input) in
  let Authorization := Header_Get (req_Header req) "Authorization" in
  if String.eqb (ss_Type scheme) "http" then
    if String.eqb (ss_Scheme scheme) "basic" then
      if String.eqb Authorization EmptyString
         || negb (String.prefix "basic " (ToLower Authorization))
      then Some (errorString "missing basic authorization header")
      else None
    else if String.eqb (ss_Scheme scheme) "bearer" then
      if String.eqb Authorization EmptyString
         || negb (String.prefix "bearer " (ToLower Authorization))
      then Some (errorString "missing bearer authorization header")
      else None
    else None
  else if String.eqb (ss_Type scheme) "oauth2"
          || String.eqb (ss_Type scheme) "openIdConnect" then
    match oauthValidator s with
    | None => Some (errorString "oauth2 validator not configured")
    | Some Validate =>
        match Validate Authorization (Scopes input) with
        | Some err => Some (errorString ("oauth2 error: " ++ Error err))
        | None => None
        end
    end
  else if String.eqb (ss_Type scheme) "apiKey" then
    if String.eqb (ss_In scheme) "header" then
      if String.eqb (Header_Get (req_Header req) (ss_Name scheme)) EmptyString
      then Some (errorString ("missing " ++ ss_Name scheme ++ " header"))
      else None
    else if String.eqb (ss_In scheme) "query" then
      if String.eqb (Query_Get (req_URL req) (ss_Name scheme)) EmptyString
      then Some (errorString ("missing " ++ ss_Name scheme ++ " query parameter"))
      else None
    else if String.eqb (ss_In scheme) "cookie" then
      match Cookie req (ss_Name scheme) with
      | Some _ => Some (errorString ("missing " ++ ss_Name scheme ++ " cookie"))
      | None => None
      end
    else None
  else None.

(** [http.Header.Set]. *)
Definition Header_Set (key value : string) (h : Header) : Header :=
  <[CanonicalMIMEHeaderKey key := [value]]> h.

(** The path parameters: a map is made only when the route has some, and
    [ctx.VisitUserValues] fills it. *)
Definition pathParams (s : openapiWaf) (ctx : fasthttp.RequestCtx)
  : option (gmap string string) :=
  if (0 <? pathParamLength s)%Z
  then Some (fold_left (fun m kv => <[fst kv := snd kv]> m)
               (UserValues ctx) (∅ : gmap string string))
  else None.

(** The request validation input the handler builds from the converted
    request; its options hold [AuthenticationFunc], which the embedding
    passes to [ValidateRequest] beside it. *)
Definition requestValidationInput (s : openapiWaf) (ctx : fasthttp.RequestCtx)
    (req : Request) : RequestValidationInput :=
  {| rvi_Request := req; PathParams := pathParams s ctx; rvi_Route := route s |}.

(** The response validation input the handler builds after the proxy call:
    the header is filled from the fields of [ctx.Request.Header], the body
    is a reader of its own over the bytes of [ctx.Response.Body ()]. *)
Definition responseValidationInput (requestValidationInput : RequestValidationInput)
    (ctx : fasthttp.RequestCtx) : ResponseValidationInput :=
  let respHeader :=
    fold_left (fun h kv => Header_Set (fst kv) (snd kv) h)
      (req_Fields (ctx_Request ctx)) (∅ : Header) in
  {| input_Request := requestValidationInput;
     Status := StatusCode (ctx_Response ctx);
     input_Header := respHeader;
     Body := Some (NopCloser (resp_Body (ctx_Response ctx)));
     input_Options := Some {| ExcludeRequestBody := false;
                              ExcludeResponseBody := false;
                              IncludeResponseStatus := true;
                              MultiError := false |} |}.

(** A call of [validator.ValidateResponse] from the handler: what it did is
    part of the handler's trace, its panic is the handler's. *)
Definition call_ValidateResponse (input : ResponseValidationInput)
    (jsonParser : Parser) : M fasthttp.RequestCtx (option error) :=
  fun ctx =>
    let r := ValidateResponse input jsonParser in
    (match outcome r with
     | Return err => Next err
     | Panic => Exit Panic
     end, ctx, EvValidateResponse :: trace r).

Definition call_ValidateRequest (s : openapiWaf)
    (input : RequestValidationInput) (jsonParser : Parser)
  : M fasthttp.RequestCtx (option error) :=
  ctx <- get ;;
  let err := ValidateRequest ctx input (AuthenticationFunc s) jsonParser in
  emit (EvValidateRequest err) ;;
  ret err.

Definition call_getValidationHeader (err : error)
  : M fasthttp.RequestCtx (option string) :=
  ctx <- get ;;
  let vh := getValidationHeader ctx err in
  emit (EvGetValidationHeader err vh) ;;
  ret vh.

(** The answer to a failed validation in [ValidationBlock] mode; [add] is the
    header the diagnostic is added to before responding. *)
Definition block (s : openapiWaf) (msg : string) (err : error)
    (add : string -> string -> fasthttp.RequestCtx -> fasthttp.RequestCtx)
  : M fasthttp.RequestCtx unit :=
  emit (EvLog msg (Some err)) ;;
  when (AddValidationStatusHeader (cfg s)) (
    vh <- call_getValidationHeader err ;;
    match vh with
    | Some v =>
        emit (EvLogAddHeader web.ValidationStatus v (Some err)) ;;
        modify (add web.ValidationStatus v) ;;
        r <- respondError (CustomBlockStatusCode (cfg s)) vh ;;
        return_ r
    | None => ret tt
    end) ;;
  r <- respondError (CustomBlockStatusCode (cfg s)) None ;;
  return_ r.

Definition openapiWafHandler_body (s : openapiWaf)
  : M fasthttp.RequestCtx (option error) :=
  match proxyPool s with
  | inr err =>
      emit (EvPoolGet (Some err)) ;;
      emit (EvLog "error while proxying request" (Some err)) ;;
      respondError fasthttp.StatusServiceUnavailable None
  | inl client =>
      emit (EvPoolGet None) ;;
      defer EvPoolPut (
        (* Proxy request if APIFW is disabled *)
        when (bool_decide (RequestValidation (cfg s) = web.ValidationDisable)
              && bool_decide (ResponseValidation (cfg s) = web.ValidationDisable)) (
          err <- performProxy client ;;
          return_ err) ;;
        (* If Validation is BLOCK for request and response then respond by
           CustomBlockStatusCode *)
        when (negb (nonnil (route s))) (
          when (bool_decide (RequestValidation (cfg s) = web.ValidationBlock)
                || bool_decide (ResponseValidation (cfg s) = web.ValidationBlock)) (
            when (AddValidationStatusHeader (cfg s)) (
              r <- respondError (CustomBlockStatusCode (cfg s))
                     (Some "request: route not found") ;;
              return_ r) ;;
            r <- respondError (CustomBlockStatusCode (cfg s)) None ;;
            return_ r) ;;
          (* Check shadow api if path or method are not found and validation
             mode is LOG_ONLY *)
          when (bool_decide (RequestValidation (cfg s) = web.ValidationLog)
                || bool_decide (ResponseValidation (cfg s) = web.ValidationLog)) (
            err <- performProxy client ;;
            ctx <- get ;;
            let sErr := shadowAPI s ctx in
            emit (EvShadowCheck sErr) ;;
            when (nonnil sErr) (emit (EvLog "Shadow API check error" err)) ;;
            return_ err)) ;;
        ctx <- get ;;
        (* Convert fasthttp request to net/http request *)
        req <-
          match ConvertRequest ctx with
          | inl req => emit (EvConvertRequest None) ;; ret req
          | inr err =>
              emit (EvConvertRequest (Some err)) ;;
              emit (EvLog "error while converting http request" (Some err)) ;;
              r <- respondError fasthttp.StatusBadRequest None ;;
              return_ r
          end ;;
        (* Validate request *)
        let requestValidationInput := requestValidationInput s ctx req in
        (* Get fastjson parser *)
        let jsonParser := parserPool s in
        emit EvParserGet ;;
        defer EvParserPut (
          match RequestValidation (cfg s) with
          | web.ValidationBlock =>
              err <- call_ValidateRequest s requestValidationInput jsonParser ;;
              match err with
              | Some e =>
                  block s "request validation error" e fasthttp.Request_Header_Add
              | None => ret tt
              end
          | web.ValidationLog =>
              err <- call_ValidateRequest s requestValidationInput jsonParser ;;
              when (nonnil err) (emit (EvLog "request validation error" err))
          | web.ValidationDisable => ret tt
          end ;;
          err <- performProxy client ;;
          when (nonnil err) (return_ err) ;;
          (* Prepare http response headers *)
          ctx <- get ;;
          let input := responseValidationInput requestValidationInput ctx in
          (* Validate response *)
          match ResponseValidation (cfg s) with
          | web.ValidationBlock =>
              err <- call_ValidateResponse input jsonParser ;;
              match err with
              | Some e =>
                  block s "response validation error" e fasthttp.Response_Header_Add
              | None => ret tt
              end
          | web.ValidationLog =>
              err <- call_ValidateResponse input jsonParser ;;
              when (nonnil err) (emit (EvLog "response validation error" err))
          | web.ValidationDisable => ret tt
          end ;;
          ret None))
  end.

Definition openapiWafHandler (s : openapiWaf) (ctx : fasthttp.RequestCtx)
  : Result fasthttp.RequestCtx :=
  run (openapiWafHandler_body s) ctx.

End Handlers.

(** ** Classes of events, and what the specification says of [web.RespondError] *)

(** The events [ValidateResponse] emits. *)
Definition validator_event (e : Event) : bool :=
  match e with
  | EvReadAll _ _ | EvSetBodyBytes _ | EvDecodeBody _ _ | EvVisitJSON _ | EvClose => true
  | _ => false
  end.




Section RespondErrorSpec.
Context `{Domain} `{!Library}.



End RespondErrorSpec.

(** ** Counting events *)

(** How often an event of a kind occurs in a trace. *)
Definition occurrences (kind : Event -> bool) (t : list Event) : nat :=
  length (List.filter kind t).

Definition is_ReadAll (e : Event) : bool :=
  match e with EvReadAll _ _ => true | _ => false end.

Definition is_Close (e : Event) : bool :=
  match e with EvClose => true | _ => false end.

Definition is_VisitJSON (e : Event) : bool :=
  match e with EvVisitJSON _ => true | _ => false end.

Definition is_ClientDo (e : Event) : bool :=
  match e with EvClientDo _ => true | _ => false end.

Definition is_PoolGet (e : Event) : bool :=
  match e with EvPoolGet _ => true | _ => false end.

Definition is_PoolPut (e : Event) : bool :=
  match e with EvPoolPut => true | _ => false end.

Definition is_ParserGet (e : Event) : bool :=
  match e with EvParserGet => true | _ => false end.

Definition is_ParserPut (e : Event) : bool :=
  match e with EvParserPut => true | _ => false end.

Definition is_ValidateRequest (e : Event) : bool :=
  match e with EvValidateRequest _ => true | _ => false end.

Definition is_ValidateResponse (e : Event) : bool :=
  match e with EvValidateResponse => true | _ => false end.

Definition is_ShadowCheck (e : Event) : bool :=
  match e with EvShadowCheck _ => true | _ => false end.


(** ** The handler, path by path

    The same function without the monad: what [openapiWafHandler] returns on
    each path, as one expression.  It is a device of the proofs, which are
    all stated on [openapiWafHandler]; [openapiWafHandler_by_path] proves the
    two equal. *)

Section HandlerByPath.
Context `{Domain} `{!Library}.

(** An answer through [web.RespondError], between the events [pre] and
    [post]. *)
Definition answered (ctx : fasthttp.RequestCtx) (statusCode : Z)
    (statusHeader : option string) (pre post : list Event)
  : Result fasthttp.RequestCtx :=
  {| outcome := Return (snd (RespondError ctx statusCode statusHeader));
     final := fst (RespondError ctx statusCode statusHeader);
     trace := (pre ++ EvRespondError statusCode statusHeader :: post)%list |}.

(** What [performProxy] returns, leaves in the context and does. *)
Definition proxy_result (client : HTTPClient) (ctx : fasthttp.RequestCtx)
  : option error * fasthttp.RequestCtx * list Event :=
  let '(req, resp, err) := Do client (ctx_Request ctx) (ctx_Response ctx) in
  let ctx' := set_Response resp (set_Request req ctx) in
  match err with
  | None => (None, ctx', [EvClientDo None])
  | Some e =>
      (snd (RespondError ctx' (gateway_status e) None),
       fst (RespondError ctx' (gateway_status e) None),
       [EvClientDo (Some e); EvLog "error while proxying request" (Some e);
        EvRespondError (gateway_status e) None])
  end.

(** The diagnostic a blocking answer carries. *)
Definition diagnostic (s : openapiWaf) (ctx : fasthttp.RequestCtx) (err : error)
  : option string :=
  if AddValidationStatusHeader (cfg s) then getValidationHeader ctx err else None.

(** The answer to a failed validation in [ValidationBlock] mode. *)
Definition blocked (s : openapiWaf) (ctx : fasthttp.RequestCtx) (msg : string)
    (err : error)
    (add : string -> string -> fasthttp.RequestCtx -> fasthttp.RequestCtx)
    (pre post : list Event) : Result fasthttp.RequestCtx :=
  let vh := diagnostic s ctx err in
  let marked :=
    match vh with
    | Some v => add web.ValidationStatus v ctx
    | None => ctx
    end in
  answered marked (CustomBlockStatusCode (cfg s)) vh
    (pre ++ EvLog msg (Some err)
         :: (if AddValidationStatusHeader (cfg s)
             then [EvGetValidationHeader err (getValidationHeader ctx err)]
             else [])
         ++ match vh with
            | Some v => [EvLogAddHeader web.ValidationStatus v (Some err)]
            | None => []
            end)%list
    post.

(** The paths of a request that goes through conversion and validation. *)
Definition matched_route (s : openapiWaf) (ctx : fasthttp.RequestCtx)
    (client : HTTPClient) : Result fasthttp.RequestCtx :=
  match ConvertRequest ctx with
  | inr err =>
      answered ctx fasthttp.StatusBadRequest None
        [EvPoolGet None; EvConvertRequest (Some err);
         EvLog "error while converting http request" (Some err)]
        [EvPoolPut]
  | inl req =>
      let input := requestValidationInput s ctx req in
      let verdict := ValidateRequest ctx input (AuthenticationFunc s) (parserPool s) in
      let start := [EvPoolGet None; EvConvertRequest None; EvParserGet] in
      let request_phase : list Event + Result fasthttp.RequestCtx :=
        match RequestValidation (cfg s) with
        | web.ValidationBlock =>
            match verdict with
            | Some e =>
                inr (blocked s ctx "request validation error" e
                       fasthttp.Request_Header_Add
                       (start ++ [EvValidateRequest verdict])%list
                       [EvParserPut; EvPoolPut])
            | None => inl [EvValidateRequest None]
            end
        | web.ValidationLog =>
            inl (EvValidateRequest verdict
                 :: match verdict with
                    | Some _ => [EvLog "request validation error" verdict]
                    | None => []
                    end)
        | web.ValidationDisable => inl []
        end in
      match request_phase with
      | inr r => r
      | inl validated =>
          let '(perr, pctx, ptrace) := proxy_result client ctx in
          let pre := (start ++ validated ++ ptrace)%list in
          match perr with
          | Some _ =>
              {| outcome := Return perr; final := pctx;
                 trace := (pre ++ [EvParserPut; EvPoolPut])%list |}
          | None =>
              let response := ValidateResponse (responseValidationInput input pctx)
                                (parserPool s) in
              let validating := (pre ++ EvValidateResponse :: trace response)%list in
              match ResponseValidation (cfg s) with
              | web.ValidationDisable =>
                  {| outcome := Return None; final := pctx;
                     trace := (pre ++ [EvParserPut; EvPoolPut])%list |}
              | web.ValidationLog =>
                  match outcome response with
                  | Panic =>
                      {| outcome := Panic; final := pctx;
                         trace := (validating ++ [EvParserPut; EvPoolPut])%list |}
                  | Return verr =>
                      {| outcome := Return None; final := pctx;
                         trace :=
                           (validating
                            ++ match verr with
                               | Some _ => [EvLog "response validation error" verr]
                               | None => []
                               end
                            ++ [EvParserPut; EvPoolPut])%list |}
                  end
              | web.ValidationBlock =>
                  match outcome response with
                  | Panic =>
                      {| outcome := Panic; final := pctx;
                         trace := (validating ++ [EvParserPut; EvPoolPut])%list |}
                  | Return None =>
                      {| outcome := Return None; final := pctx;
                         trace := (validating ++ [EvParserPut; EvPoolPut])%list |}
                  | Return (Some e) =>
                      blocked s pctx "response validation error" e
                        fasthttp.Response_Header_Add validating
                        [EvParserPut; EvPoolPut]
                  end
              end
          end
      end
  end.

Definition handler_by_path (s : openapiWaf) (ctx : fasthttp.RequestCtx)
  : Result fasthttp.RequestCtx :=
  match proxyPool s with
  | inr err =>
      answered ctx fasthttp.StatusServiceUnavailable None
        [EvPoolGet (Some err); EvLog "error while proxying request" (Some err)] []
  | inl client =>
      let bare :=
        let '(perr, pctx, ptrace) := proxy_result client ctx in
        {| outcome := Return perr; final := pctx;
           trace := (EvPoolGet None :: ptrace ++ [EvPoolPut])%list |} in
      let shadowed :=
        let '(perr, pctx, ptrace) := proxy_result client ctx in
        {| outcome := Return perr; final := pctx;
           trace := (EvPoolGet None :: ptrace
                     ++ EvShadowCheck (shadowAPI s pctx)
                     :: match shadowAPI s pctx with
                        | Some _ => [EvLog "Shadow API check error" perr]
                        | None => []
                        end
                     ++ [EvPoolPut])%list |} in
      match RequestValidation (cfg s), ResponseValidation (cfg s), route s with
      | web.ValidationDisable, web.ValidationDisable, _ => bare
      | web.ValidationBlock, _, None | _, web.ValidationBlock, None =>
          answered ctx (CustomBlockStatusCode (cfg s))
            (if AddValidationStatusHeader (cfg s)
             then Some "request: route not found" else None)
            [EvPoolGet None] [EvPoolPut]
      | _, _, None => shadowed
      | _, _, Some _ => matched_route s ctx client
      end
  end.

End HandlerByPath.


(** ** A concrete library and concrete requests

    One instance of the opaque types and calls, on which the theorems below
    are exercised: a schema is the number of bytes a body must have, a body
    decodes to its own bytes unless it is empty, a request is valid unless
    its body is empty. *)

Definition ex_Domain : Domain :=
  {| Schema := nat;
     Value := list Byte.byte;
     FastjsonValue := list Byte.byte;
     Parser := unit;
     URL := unit |}.

Section Examples.
#[local] Existing Instance ex_Domain.

(** Modelled from the spec: [web.RespondError] is not part of the sources.
    Sections 4.6 and 6 of the specification have it answer the client with
    the given status code, carrying the diagnostic as the header
    [APIFW-Validation-Status] when one is given, and never echo a body; the
    error it returns to its caller, which the specification does not give,
    is the argument [returned]. *)
Definition ex_RespondError (returned : option error) (ctx : fasthttp.RequestCtx)
    (statusCode : Z) (statusHeader : option string)
  : fasthttp.RequestCtx * option error :=
  (set_Response
     {| StatusCode := statusCode;
        resp_ContentType := resp_ContentType (ctx_Response ctx);
        resp_Fields :=
          match statusHeader with
          | Some v => (resp_Fields (ctx_Response ctx) ++ [(web.ValidationStatus, v)])%list
          | None => resp_Fields (ctx_Response ctx)
          end;
        resp_Body := [] |} ctx,
   returned).

Definition ex_Error (err : error) : string :=
  match err with
  | errorString msg => msg
  | SchemaError Reason => Reason
  | ResponseError Reason _ => Reason
  | RequestError _ _ Reason _ => Reason
  | ErrDialTimeout => "dialing to the given TCP address timed out"
  | ErrNoFreeConns => "no free connections available to host"
  | SecurityRequirementsError _ _ => "security requirements failed"
  end.

(** What the conversion of a request makes of it. *)
Definition ex_converted (method : string) : Request :=
  {| Method := method; req_Header := ∅; req_URL := tt |}.

Definition ex_Library (returned : option error) : Library :=
  {| DefaultOptions :=
       {| ExcludeRequestBody := false; ExcludeResponseBody := false;
          IncludeResponseStatus := false; MultiError := false |};
     CanonicalMIMEHeaderKey := fun key => key;
     Content_Get := fun content mime => content !! mime;
     Quote := fun s => String (ascii_of_nat 34) (s ++ String (ascii_of_nat 34) EmptyString);
     decodeBody := fun data _ _ _ _ =>
       match data with
       | [] => inr (errorString "unexpected end of input")
       | _ => inl ("application/json", data)
       end;
     asFastjson := fun _ => None;
     convertToMap := fun v => v;
     VisitJSON := fun schema value _ =>
       if Nat.eqb (length value) schema then None
       else Some (SchemaError "wrong length");
     Error := ex_Error;
     ToLower := fun s => s;
     Query_Get := fun _ _ => EmptyString;
     Cookie := fun _ _ => None;
     ConvertRequest := fun ctx => inl (ex_converted (req_Method (ctx_Request ctx)));
     ValidateRequest := fun ctx _ _ _ =>
       match req_Body (ctx_Request ctx) with
       | [] => Some (RequestError None true "value is required but missing" None)
       | _ => None
       end;
     RespondError := ex_RespondError returned |}.

(** A route that documents the status 200 only, with a JSON body of two
    bytes, and one that also has a default entry. *)
Definition ex_response : ResponseRef :=
  {| rr_Value := Some
       {| Content := {[ "application/json" :=
            {| mt_Schema := Some 2%nat; mt_Encoding := ∅ |} ]} |} |}.

Definition ex_route : Route :=
  {| route_Operation := {| Responses := {[ "200" := ex_response ]} |} |}.

Definition ex_route_default : Route :=
  {| route_Operation :=
       {| Responses := <[ "default" := ex_response ]> {[ "200" := ex_response ]} |} |}.

Definition ex_request (method : string) (route : option Route)
  : RequestValidationInput :=
  {| rvi_Request := ex_converted method;
     PathParams := None;
     rvi_Route := route |}.

Definition ex_options (includeStatus : bool) : Options :=
  {| ExcludeRequestBody := false; ExcludeResponseBody := false;
     IncludeResponseStatus := includeStatus; MultiError := false |}.

(** A response validation input for [ex_route] with a JSON content type. *)
Definition ex_input (method : string) (status : Z) (body : ReadCloser)
    (includeStatus : bool) : ResponseValidationInput :=
  {| input_Request := ex_request method (Some ex_route);
     Status := status;
     input_Header := {[ "Content-Type" := ["application/json"] ]};
     Body := Some body;
     input_Options := Some (ex_options includeStatus) |}.

Definition ex_bytes2 : list Byte.byte := [Byte.x7b; Byte.x7d].
Definition ex_bytes3 : list Byte.byte := [Byte.x5b; Byte.x31; Byte.x5d].

(** A stream that breaks after one byte. *)
Definition ex_broken : ReadCloser :=
  {| pending := [Byte.x7b]; failure := Some (errorString "unexpected EOF") |}.

(** A request context: a [GET] with a JSON body, nothing answered yet. *)
Definition ex_ctx (method : string) (body : list Byte.byte) : fasthttp.RequestCtx :=
  {| ID := 1;
     ctx_Request :=
       {| req_Method := method;
          req_ContentType := "application/json";
          req_Fields := [("Content-Type", "application/json")];
          req_Body := body |};
     ctx_Response :=
       {| StatusCode := 200;
          resp_ContentType := "text/plain; charset=utf-8";
          resp_Fields := [];
          resp_Body := [] |};
     UserValues := [] |}.

(** A backend that answers every request with [status] and [body], and one
    that cannot be dialled in time. *)
Definition ex_backend (status : Z) (body : list Byte.byte) : HTTPClient :=
  {| Do := fun req _ =>
       (req,
        {| StatusCode := status;
           resp_ContentType := "application/json";
           resp_Fields := [("Content-Type", "application/json")];
           resp_Body := body |},
        None) |}.

Definition ex_backend_down (err : error) : HTTPClient :=
  {| Do := fun req resp => (req, resp, Some err) |}.

Definition ex_cfg (request response : web.ValidationMode) (header : bool)
  : APIFWConfiguration :=
  {| RequestValidation := request;
     ResponseValidation := response;
     AddValidationStatusHeader := header;
     CustomBlockStatusCode := 403 |}.

Definition ex_waf (route : option Route) (client : HTTPClient + error)
    (config : APIFWConfiguration) (shadow : option error) : openapiWaf :=
  {| route := route;
     proxyPool := client;
     cfg := config;
     pathParamLength := 0;
     parserPool := tt;
     oauthValidator := None;
     shadowAPI := fun _ => shadow |}.

(** The library whose [web.RespondError] returns nil, and the one whose
    [web.RespondError] returns an error. *)
Definition ex_lib : Library := ex_Library None.
Definition ex_lib_terminal : Library :=
  ex_Library (Some (errorString "responded")).

(** The context once a backend has answered [status] with [body]. *)
Definition ex_answered (status : Z) (body : list Byte.byte) : fasthttp.RequestCtx :=
  set_Response
    {| StatusCode := status;
       resp_ContentType := "application/json";
       resp_Fields := [("Content-Type", "application/json")];
       resp_Body := body |}
    (ex_ctx "GET" ex_bytes2).

End Examples.

(** ** More concrete inputs *)

Section MoreExamples.
#[local] Existing Instance ex_Domain.

(** An input whose options turn the validation of the body off, with a
    stream that would break if read. *)
Definition ex_input_excluded : ResponseValidationInput :=
  {| input_Request := ex_request "GET" (Some ex_route);
     Status := 200;
     input_Header := {[ "Content-Type" := ["application/json"] ]};
     Body := Some ex_broken;
     input_Options :=
       Some {| ExcludeRequestBody := false; ExcludeResponseBody := true;
               IncludeResponseStatus := true; MultiError := false |} |}.

(** An authentication input: a security scheme, and a request with the
    given [Authorization] header. *)
Definition ex_scheme (type scheme location name : string) : SecurityScheme :=
  {| ss_Type := type; ss_Scheme := scheme; ss_In := location; ss_Name := name |}.

Definition ex_auth (scheme : SecurityScheme) (authorization : string)
  : AuthenticationInput :=
  {| auth_Request :=
       {| rvi_Request :=
            {| Method := "GET";
               req_Header := {[ "Authorization" := [authorization] ]};
               req_URL := tt |};
          PathParams := None;
          rvi_Route := Some ex_route |};
     auth_SecurityScheme := scheme;
     Scopes := ["read"] |}.

(** A handler with an OAuth2 validator that knows one token. *)
Definition ex_waf_oauth : openapiWaf :=
  {| route := Some ex_route;
     proxyPool := inl (ex_backend 200 ex_bytes2);
     cfg := ex_cfg web.ValidationBlock web.ValidationBlock true;
     pathParamLength := 0;
     parserPool := tt;
     oauthValidator :=
       Some (fun header _ =>
               if String.eqb header "Bearer token" then None
               else Some (errorString "invalid token"));
     shadowAPI := fun _ => None |}.

(** A backend that answers in plain text, without header fields. *)
Definition ex_backend_plain (status : Z) (body : list Byte.byte) : HTTPClient :=
  {| Do := fun req _ =>
       (req,
        {| StatusCode := status;
           resp_ContentType := "text/plain";
           resp_Fields := [];
           resp_Body := body |},
        None) |}.

End MoreExamples.

(** * Properties *)

(** ** Tactics: one case per path through a body *)

(** Cases on a scrutinee that holds no other [match]: the first test the
    code meets. *)
Ltac inner_case :=
  match goal with
  | |- context [match ?x with _ => _ end] =>
      lazymatch x with
      | context [match _ with _ => _ end] => fail
      | _ => destruct x eqn:?
      end
  end.

Ltac go_unfold :=
  cbv beta iota zeta delta
    [run bind when get put modify emit return_ ret deref panic defer nonnil ReadAll].

Ltac go_simpl :=
  cbn [app trace final outcome Body set_Body SetBodyBytes In fst snd negb orb andb].

Ltac go_paths := go_unfold; repeat (inner_case; go_simpl).

(** A conjunction of closed facts, each settled by evaluation. *)
Ltac by_evaluation :=
  repeat match goal with |- _ /\ _ => split end;
  vm_compute;
  first [ reflexivity | discriminate | tauto ].

(** ** [ValidateResponse] *)

Section ValidatorFacts.
Context `{Domain} `{!Library}.

Lemma never_validated_spec (status : Z) :
  never_validated status = true <-> In status [301; 304; 307; 308].
Proof.
  unfold never_validated, http.StatusNotModified, http.StatusPermanentRedirect,
    http.StatusTemporaryRedirect, http.StatusMovedPermanently.
  rewrite !orb_true_iff, !bool_decide_eq_true. simpl. intuition lia.
Qed.

(** The lookup half hands over to [validateResponseRef] once the early
    returns are passed. *)
Lemma ValidateResponse_lookup input parser route :
  Method (rvi_Request (input_Request input)) <> "HEAD" ->
  never_validated (Status input) = false ->
  rvi_Route (input_Request input) = Some route ->
  size (Responses (route_Operation route)) <> 0%nat ->
  ValidateResponse input parser =
    run (validateResponseRef (default DefaultOptions (input_Options input))
           (match Responses_Get (Responses (route_Operation route)) (Status input) with
            | Some r => Some r
            | None => Responses_Default (Responses (route_Operation route))
            end) parser) input.
Proof.
  intros Hhead Hskip Hroute Hsize.
  unfold ValidateResponse, ValidateResponse_body.
  unfold run at 1. unfold bind at 1. unfold get at 1.
  unfold bind at 1. unfold when at 1.
  rewrite (bool_decide_eq_false_2 _ Hhead).
  unfold ret at 1. unfold bind at 1. unfold when at 1. rewrite Hskip.
  unfold ret at 1. rewrite Hroute. unfold bind at 1, deref at 1, ret at 1.
  unfold bind at 1, when at 1.
  rewrite (bool_decide_eq_false_2 _ Hsize). unfold ret at 1.
  unfold run.
  destruct (validateResponseRef _ _ _ input) as [[[a|o] s1] t]; reflexivity.
Qed.

(** Whatever [ValidateResponse] does, it only reads, restores, decodes and
    visits. *)
Lemma ValidateResponse_events input parser :
  forallb validator_event (trace (ValidateResponse input parser)) = true.
Proof.
  unfold ValidateResponse, ValidateResponse_body, validateResponseRef.
  go_paths; reflexivity.
Qed.

(** The one read of the body, and what the input holds after it. *)
Lemma ValidateResponse_read_inv input parser data err :
  In (EvReadAll data err) (trace (ValidateResponse input parser)) ->
  exists body,
    Body input = Some body /\ ReadAll body = (data, err) /\
    match err with
    | Some e =>
        outcome (ValidateResponse input parser) =
          Return (Some (ResponseError "failed to read response body" (Some e)))
        /\ Body (final (ValidateResponse input parser)) = None
    | None =>
        Body (final (ValidateResponse input parser)) = Some (NopCloser data)
    end.
Proof.
  unfold ValidateResponse, ValidateResponse_body, validateResponseRef.
  go_paths; try tauto;
    intros Hin; repeat destruct Hin as [Hin|Hin]; try discriminate Hin;
    try contradiction; simplify_eq; eexists; repeat split;
    try reflexivity; try congruence.
Qed.

(** With a route and a body in the input, no nil is dereferenced. *)
Lemma ValidateResponse_no_panic input parser :
  rvi_Route (input_Request input) <> None ->
  Body input <> None ->
  outcome (ValidateResponse input parser) <> Panic.
Proof.
  unfold ValidateResponse, ValidateResponse_body, validateResponseRef.
  go_paths; intros Hroute Hbody; try discriminate; contradiction.
Qed.

(** The two early returns, by their tests. *)
Lemma ValidateResponse_early_return input parser :
  bool_decide (Method (rvi_Request (input_Request input)) = "HEAD")
  || never_validated (Status input) = true ->
  ValidateResponse input parser =
    {| outcome := Return None; final := input; trace := [] |}.
Proof.
  intros Hskip.
  unfold ValidateResponse, ValidateResponse_body.
  unfold run, bind at 1, get at 1, bind at 1, when at 1.
  destruct (bool_decide (Method (rvi_Request (input_Request input)) = "HEAD")).
  - reflexivity.
  - cbn [orb] in Hskip.
    unfold ret at 1, bind at 1, when at 1. rewrite Hskip. reflexivity.
Qed.

(** A route without any response is not validated. *)
Lemma ValidateResponse_no_responses input parser route :
  Method (rvi_Request (input_Request input)) <> "HEAD" ->
  never_validated (Status input) = false ->
  rvi_Route (input_Request input) = Some route ->
  size (Responses (route_Operation route)) = 0%nat ->
  ValidateResponse input parser =
    {| outcome := Return None; final := input; trace := [] |}.
Proof.
  intros Hhead Hskip Hroute Hsize.
  unfold ValidateResponse, ValidateResponse_body.
  unfold run, bind at 1, get at 1, bind at 1, when at 1.
  rewrite (bool_decide_eq_false_2 _ Hhead).
  unfold ret at 1, bind at 1, when at 1. rewrite Hskip.
  unfold ret at 1. rewrite Hroute. unfold bind at 1, deref at 1, ret at 1.
  unfold bind at 1, when at 1.
  rewrite (bool_decide_eq_true_2 _ Hsize). reflexivity.
Qed.

(** The second half when the lookup found no entry at all. *)
Lemma validateResponseRef_nil options parser input :
  run (validateResponseRef options None parser) input =
    {| outcome :=
         if IncludeResponseStatus options
         then Return (Some (ResponseError "status is not supported" None))
         else Return None;
       final := input;
       trace := [] |}.
Proof.
  unfold validateResponseRef, run, bind at 1, get at 1, bind at 1.
  destruct (IncludeResponseStatus options); reflexivity.
Qed.


(** C3. A [HEAD] request, and a response with status 301, 304, 307 or 308,
    make [ValidateResponse] return nil at once: the input is left as it was
    and nothing is read, decoded or visited, whatever the route, the options
    and the body are. *)
Theorem ValidateResponse_never_validates input parser :
  Method (rvi_Request (input_Request input)) = "HEAD" \/
  In (Status input) [301; 304; 307; 308] ->
  ValidateResponse input parser =
    {| outcome := Return None; final := input; trace := [] |}.
Proof.
  intros [Hhead | Hstatus]; apply ValidateResponse_early_return.
  - rewrite (bool_decide_eq_true_2 _ Hhead). reflexivity.
  - apply never_validated_spec in Hstatus. rewrite Hstatus.
    apply orb_true_r.
Qed.

(** C10. When the read of the body fails, [ValidateResponse] returns the
    response error "failed to read response body" wrapping the read error,
    and the input leaves the call with a nil body: the bytes read before the
    failure are not put back. *)
Theorem ValidateResponse_read_failure input parser data e :
  In (EvReadAll data (Some e)) (trace (ValidateResponse input parser)) ->
  (exists body, Body input = Some body /\ ReadAll body = (data, Some e)) /\
  outcome (ValidateResponse input parser) =
    Return (Some (ResponseError "failed to read response body" (Some e))) /\
  Body (final (ValidateResponse input parser)) = None.
Proof.
  intros Hin.
  destruct (ValidateResponse_read_inv _ _ _ _ Hin) as (body & Hbody & Hread & Hout & Hfinal).
  split; [exists body; split; assumption | split; assumption].
Qed.

(** C7, as amended. Past the early returns for [HEAD] and for the statuses
    301, 304, 307 and 308, a route with a non-empty response set and no entry
    for the status is validated against its default entry; without a default
    entry the call returns nil when [IncludeResponseStatus] is unset and the
    response error "status is not supported" when it is set, and touches
    nothing. *)
Theorem ValidateResponse_default_fallback input parser route :
  Method (rvi_Request (input_Request input)) <> "HEAD" ->
  never_validated (Status input) = false ->
  rvi_Route (input_Request input) = Some route ->
  size (Responses (route_Operation route)) <> 0%nat ->
  Responses_Get (Responses (route_Operation route)) (Status input) = None ->
  let options := default DefaultOptions (input_Options input) in
  let fallback := Responses_Default (Responses (route_Operation route)) in
  ValidateResponse input parser =
    run (validateResponseRef options fallback parser) input /\
  (fallback = None ->
   ValidateResponse input parser =
     {| outcome :=
          if IncludeResponseStatus options
          then Return (Some (ResponseError "status is not supported" None))
          else Return None;
        final := input;
        trace := [] |}).
Proof.
  intros Hhead Hskip Hroute Hsize Hget options fallback.
  rewrite (ValidateResponse_lookup _ _ _ Hhead Hskip Hroute Hsize), Hget.
  split; [reflexivity |].
  intros Hnone. fold fallback. rewrite Hnone.
  apply validateResponseRef_nil.
Qed.

(** C2, as amended. On the input the handler builds, which sets
    [IncludeResponseStatus], a status with neither an entry of its own nor a
    default entry passes only when the method is [HEAD], the status is one of
    301, 304, 307, 308, or the route declares no response at all; otherwise
    the call returns the response error "status is not supported".  In both
    cases nothing is read. *)
Theorem pipeline_undocumented_status rvi ctx parser route :
  rvi_Route rvi = Some route ->
  Responses_Get (Responses (route_Operation route)) (StatusCode (ctx_Response ctx)) = None ->
  Responses_Default (Responses (route_Operation route)) = None ->
  ValidateResponse (responseValidationInput rvi ctx) parser =
    {| outcome :=
         if bool_decide (Method (rvi_Request rvi) = "HEAD")
            || never_validated (StatusCode (ctx_Response ctx))
            || bool_decide (size (Responses (route_Operation route)) = 0%nat)
         then Return None
         else Return (Some (ResponseError "status is not supported" None));
       final := responseValidationInput rvi ctx;
       trace := [] |}.
Proof.
  intros Hroute Hget Hdefault.
  destruct (bool_decide (Method (rvi_Request rvi) = "HEAD")) eqn:Hhead.
  { apply ValidateResponse_early_return. cbn. rewrite Hhead. reflexivity. }
  destruct (never_validated (StatusCode (ctx_Response ctx))) eqn:Hskip.
  { apply ValidateResponse_early_return. cbn. rewrite Hskip. apply orb_true_r. }
  apply bool_decide_eq_false_1 in Hhead.
  destruct (bool_decide (size (Responses (route_Operation route)) = 0%nat)) eqn:Hsize.
  - apply bool_decide_eq_true_1 in Hsize.
    apply (ValidateResponse_no_responses _ _ route); assumption.
  - apply bool_decide_eq_false_1 in Hsize.
    rewrite (ValidateResponse_lookup (responseValidationInput rvi ctx) parser route
               Hhead Hskip Hroute Hsize).
    cbn [responseValidationInput Status input_Options default].
    rewrite Hget, Hdefault. apply validateResponseRef_nil.
Qed.

End ValidatorFacts.

Section ValidatorExamples.
#[local] Existing Instance ex_Domain.
#[local] Existing Instance ex_lib.


(** A [HEAD] request for an undocumented status, with a stream that would
    break if read. *)
Lemma ValidateResponse_never_validates_witness :
  ValidateResponse (ex_input "HEAD" 404 ex_broken true) tt =
    {| outcome := Return None;
       final := ex_input "HEAD" 404 ex_broken true;
       trace := [] |} /\
  ValidateResponse (ex_input "GET" 304 ex_broken true) tt =
    {| outcome := Return None;
       final := ex_input "GET" 304 ex_broken true;
       trace := [] |}.
Proof.
  split.
  - apply (ValidateResponse_never_validates (ex_input "HEAD" 404 ex_broken true) tt).
    left. reflexivity.
  - apply (ValidateResponse_never_validates (ex_input "GET" 304 ex_broken true) tt).
    right. simpl. tauto.
Defined.

(** A stream that breaks after its first byte. *)
Lemma ValidateResponse_read_failure_witness :
  (exists body,
     Body (ex_input "GET" 200 ex_broken true) = Some body /\
     ReadAll body = ([Byte.x7b], Some (errorString "unexpected EOF"))) /\
  outcome (ValidateResponse (ex_input "GET" 200 ex_broken true) tt) =
    Return (Some (ResponseError "failed to read response body"
                    (Some (errorString "unexpected EOF")))) /\
  Body (final (ValidateResponse (ex_input "GET" 200 ex_broken true) tt)) = None.
Proof.
  apply (ValidateResponse_read_failure (ex_input "GET" 200 ex_broken true) tt [Byte.x7b]).
  vm_compute. left. reflexivity.
Defined.

(** C7 as stated fails on a [HEAD] request: the route documents 200 only,
    the status is 404, there is no default entry and
    [IncludeResponseStatus] is set, yet the call returns nil instead of a
    response error. *)
Lemma ValidateResponse_default_fallback_counterexample :
  rvi_Route (input_Request (ex_input "HEAD" 404 (NopCloser ex_bytes2) true)) = Some ex_route /\
  size (Responses (route_Operation ex_route)) <> 0%nat /\
  Responses_Get (Responses (route_Operation ex_route)) 404 = None /\
  Responses_Default (Responses (route_Operation ex_route)) = None /\
  IncludeResponseStatus
    (default DefaultOptions
       (input_Options (ex_input "HEAD" 404 (NopCloser ex_bytes2) true))) = true /\
  outcome (ValidateResponse (ex_input "HEAD" 404 (NopCloser ex_bytes2) true) tt) =
    Return None.
Proof.
  by_evaluation.
Qed.

(** The same status on a [GET]: with the option set the call fails, with the
    option unset it passes. *)
Lemma ValidateResponse_default_fallback_witness :
  ValidateResponse (ex_input "GET" 404 (NopCloser ex_bytes2) true) tt =
    {| outcome := Return (Some (ResponseError "status is not supported" None));
       final := ex_input "GET" 404 (NopCloser ex_bytes2) true;
       trace := [] |} /\
  ValidateResponse (ex_input "GET" 404 (NopCloser ex_bytes2) false) tt =
    {| outcome := Return None;
       final := ex_input "GET" 404 (NopCloser ex_bytes2) false;
       trace := [] |}.
Proof.
  split.
  - apply (ValidateResponse_default_fallback
             (ex_input "GET" 404 (NopCloser ex_bytes2) true) tt ex_route);
      try reflexivity; vm_compute; discriminate.
  - apply (ValidateResponse_default_fallback
             (ex_input "GET" 404 (NopCloser ex_bytes2) false) tt ex_route);
      try reflexivity; vm_compute; discriminate.
Defined.

(** C2 as stated fails in the pipeline: the route documents 200 only, the
    backend answers 404, and the input the handler builds makes
    [ValidateResponse] return an error. *)
Lemma pipeline_undocumented_status_counterexample :
  rvi_Route (ex_request "GET" (Some ex_route)) = Some ex_route /\
  Responses_Get (Responses (route_Operation ex_route))
    (StatusCode (ctx_Response (ex_answered 404 ex_bytes2))) = None /\
  Responses_Default (Responses (route_Operation ex_route)) = None /\
  outcome (ValidateResponse
             (responseValidationInput (ex_request "GET" (Some ex_route))
                (ex_answered 404 ex_bytes2)) tt) =
    Return (Some (ResponseError "status is not supported" None)).
Proof.
  by_evaluation.
Qed.

Lemma pipeline_undocumented_status_witness :
  outcome (ValidateResponse
             (responseValidationInput (ex_request "GET" (Some ex_route))
                (ex_answered 404 ex_bytes2)) tt) =
    Return (Some (ResponseError "status is not supported" None)) /\
  outcome (ValidateResponse
             (responseValidationInput (ex_request "HEAD" (Some ex_route))
                (ex_answered 404 ex_bytes2)) tt) =
    Return None.
Proof.
  split.
  - rewrite (pipeline_undocumented_status (ex_request "GET" (Some ex_route))
               (ex_answered 404 ex_bytes2) tt ex_route); reflexivity.
  - rewrite (pipeline_undocumented_status (ex_request "HEAD" (Some ex_route))
               (ex_answered 404 ex_bytes2) tt ex_route); reflexivity.
Defined.

End ValidatorExamples.

(** ** The handler *)

Ltac handler_unfold :=
  cbv beta iota zeta delta
    [openapiWafHandler openapiWafHandler_body block
     call_ValidateRequest call_ValidateResponse call_getValidationHeader
     run bind when get put modify emit return_ ret deref panic defer nonnil];
  cbn [cfg route proxyPool RequestValidation ResponseValidation
       AddValidationStatusHeader CustomBlockStatusCode parserPool shadowAPI
       pathParamLength].

(** The tests of the two modes, once the modes are known. *)
Ltac modes :=
  repeat first
    [ rewrite bool_decide_eq_true_2 by reflexivity
    | rewrite bool_decide_eq_false_2 by discriminate ];
  cbn [andb orb negb].

Section HandlerFacts.
Context `{Domain} `{!Library}.

Lemma respondError_eq code hdr ctx :
  respondError code hdr ctx =
    (Next (snd (RespondError ctx code hdr)), fst (RespondError ctx code hdr),
     [EvRespondError code hdr]).
Proof.
  unfold respondError. go_unfold. destruct (RespondError ctx code hdr). reflexivity.
Qed.

Lemma performProxy_ok client ctx req resp :
  Do client (ctx_Request ctx) (ctx_Response ctx) = (req, resp, None) ->
  performProxy client ctx =
    (Next None, set_Response resp (set_Request req ctx), [EvClientDo None]).
Proof. intros HDo. unfold performProxy. go_unfold. rewrite HDo. reflexivity. Qed.

Lemma performProxy_failed client ctx req resp e :
  Do client (ctx_Request ctx) (ctx_Response ctx) = (req, resp, Some e) ->
  let answer :=
    RespondError (set_Response resp (set_Request req ctx)) (gateway_status e) None in
  performProxy client ctx =
    (Next (snd answer), fst answer,
     [EvClientDo (Some e); EvLog "error while proxying request" (Some e);
      EvRespondError (gateway_status e) None]).
Proof.
  intros HDo answer. unfold performProxy.
  cbv beta iota zeta delta [bind get put emit]. rewrite HDo.
  destruct e; rewrite respondError_eq; reflexivity.
Qed.

Lemma validator_trace_In ev input parser :
  In ev (trace (ValidateResponse input parser)) -> validator_event ev = true.
Proof.
  intros Hin. pose proof (ValidateResponse_events input parser) as Hall.
  rewrite forallb_forall in Hall. apply Hall. exact Hin.
Qed.


End HandlerFacts.

(** Membership of an event in a trace, one place at a time. *)
Ltac in_cases H :=
  repeat match type of H with
  | _ \/ _ => destruct H as [H|H]; [try discriminate H |]
  | In _ (_ :: _) => destruct H as [H|H]; [try discriminate H |]
  | In _ (_ ++ _)%list => apply in_app_or in H; destruct H as [H|H]
  | In _ [] => contradiction H
  | In _ (trace (ValidateResponse _ _)) =>
      apply validator_trace_In in H; discriminate H
  | False => contradiction H
  end.

Section HandlerTheorems.
Context `{Domain} `{!Library}.



(** C8, as amended. In [ValidationLog] request mode, on a matched route, with
    a client from the pool and a converted request, a request that fails
    validation is logged and then proxied as it came in.  When the backend
    call succeeds, its response reaches the client untouched unless the
    response mode is [ValidationBlock] and the response fails validation;
    then the handler answers through [web.RespondError] with the configured
    block status code. *)
Theorem log_only_request_is_proxied s ctx client matched req e rq rs :
  RequestValidation (cfg s) = web.ValidationLog ->
  route s = Some matched ->
  proxyPool s = inl client ->
  ConvertRequest ctx = inl req ->
  ValidateRequest ctx (requestValidationInput s ctx req) (AuthenticationFunc s)
    (parserPool s) = Some e ->
  Do client (ctx_Request ctx) (ctx_Response ctx) = (rq, rs, None) ->
  let proxied := set_Response rs (set_Request rq ctx) in
  let verdict :=
    ValidateResponse
      (responseValidationInput (requestValidationInput s ctx req) proxied)
      (parserPool s) in
  (exists rest,
     trace (openapiWafHandler s ctx) =
       ([EvPoolGet None; EvConvertRequest None; EvParserGet;
         EvValidateRequest (Some e); EvLog "request validation error" (Some e);
         EvClientDo None] ++ rest)%list) /\
  (ResponseValidation (cfg s) <> web.ValidationBlock \/ outcome verdict = Return None ->
   final (openapiWafHandler s ctx) = proxied /\
   outcome (openapiWafHandler s ctx) = Return None) /\
  (ResponseValidation (cfg s) = web.ValidationBlock ->
   forall failure, outcome verdict = Return (Some failure) ->
   let vh :=
     if AddValidationStatusHeader (cfg s)
     then getValidationHeader proxied failure else None in
   let marked :=
     match vh with
     | Some v => Response_Header_Add web.ValidationStatus v proxied
     | None => proxied
     end in
   let answer := RespondError marked (CustomBlockStatusCode (cfg s)) vh in
   final (openapiWafHandler s ctx) = fst answer /\
   outcome (openapiWafHandler s ctx) = Return (snd answer)).
Proof.
  intros Hrq Hroute Hpool Hconv Hval HDo proxied verdict.
  assert (outcome verdict <> Panic) as Hnopanic.
  { apply ValidateResponse_no_panic.
    - cbn. rewrite Hroute. discriminate.
    - cbn. discriminate. }
  pose proof (performProxy_ok _ _ _ _ HDo) as HP.
  handler_unfold. rewrite Hpool, Hrq, Hroute. modes. go_simpl.
  rewrite Hconv. go_simpl. rewrite Hval. go_simpl. rewrite HP. go_simpl.
  fold proxied. fold verdict.
  destruct (ResponseValidation (cfg s)) eqn:Hrs.
  - split; [eexists; reflexivity |]. split; [intros _; split; reflexivity |].
    discriminate.
  - destruct (outcome verdict) as [[failure|]|] eqn:Hout; [| | contradiction].
    + split; [eexists; reflexivity |]. split; [intros _; split; reflexivity |].
      discriminate.
    + split; [eexists; reflexivity |]. split; [intros _; split; reflexivity |].
      discriminate.
  - destruct (outcome verdict) as [[failure|]|] eqn:Hout; [| | contradiction].
    + destruct (AddValidationStatusHeader (cfg s)) eqn:Hhdr.
      * destruct (getValidationHeader proxied failure) as [v|] eqn:Hvh;
          rewrite ?respondError_eq; go_simpl.
        all: split; [eexists; reflexivity |].
        all: split; [intros [Hno | Hno]; [contradiction | discriminate] |].
        all: intros _ failure' Hfail; injection Hfail as <-; rewrite Hvh.
        all: split; reflexivity.
      * rewrite ?respondError_eq; go_simpl.
        split; [eexists; reflexivity |].
        split; [intros [Hno | Hno]; [contradiction | discriminate] |].
        intros _ failure' Hfail; injection Hfail as <-.
        split; reflexivity.
    + split; [eexists; reflexivity |]. split; [intros _; split; reflexivity |].
      intros _ failure Hfail. discriminate.
Qed.


(** C4, as amended. For a request error with a parameter the header is
    [request-parameter:<reason>:<name>].  With an empty top-level reason the
    name is the parameter's and the reason is that of the wrapped schema
    error, or [unknown] when no schema error with a reason is wrapped; with a
    top-level reason the reason is that one and the name is the fixed word
    [request-parameter]. *)
Theorem getValidationHeader_parameter ctx parameter body reason err :
  (reason <> EmptyString ->
   getValidationHeader ctx (RequestError (Some parameter) body reason err) =
     Some ("request-parameter:" ++ reason ++ ":request-parameter")) /\
  (reason = EmptyString ->
   forall schemaReason,
     err = Some (SchemaError schemaReason) -> schemaReason <> EmptyString ->
     getValidationHeader ctx (RequestError (Some parameter) body reason err) =
       Some ("request-parameter:" ++ schemaReason ++ ":" ++ Name parameter)) /\
  (reason = EmptyString ->
   (forall schemaReason, err = Some (SchemaError schemaReason) ->
      schemaReason = EmptyString) ->
   getValidationHeader ctx (RequestError (Some parameter) body reason err) =
     Some ("request-parameter:unknown:" ++ Name parameter)).
Proof.
  unfold getValidationHeader, nonempty. repeat split.
  - intros Hreason. apply String.eqb_neq in Hreason. rewrite Hreason. reflexivity.
  - intros -> schemaReason -> Hschema. apply String.eqb_neq in Hschema.
    cbn. rewrite Hschema. reflexivity.
  - intros -> Hnone. cbn.
    destruct err as [[]|]; try reflexivity.
    rewrite (Hnone _ eq_refl). reflexivity.
Qed.

(** What the entry "Shadow API check error" records: the error the proxy
    call returned, not the error of the check. *)
Theorem shadow_check_logs_proxy_error s ctx client sErr :
  route s = None ->
  proxyPool s = inl client ->
  RequestValidation (cfg s) <> web.ValidationBlock ->
  ResponseValidation (cfg s) <> web.ValidationBlock ->
  RequestValidation (cfg s) = web.ValidationLog \/
  ResponseValidation (cfg s) = web.ValidationLog ->
  shadowAPI s (final (run (performProxy client) ctx)) = Some sErr ->
  exists err,
    outcome (run (performProxy client) ctx) = Return err /\
    In (EvLog "Shadow API check error" err) (trace (openapiWafHandler s ctx)).
Proof.
  intros Hroute Hpool Hrq Hrs Hlog. unfold run.
  handler_unfold. rewrite Hpool, Hroute.
  destruct (RequestValidation (cfg s)), (ResponseValidation (cfg s));
    try contradiction; try (destruct Hlog; discriminate); modes; go_simpl.
  all: destruct (Do client (ctx_Request ctx) (ctx_Response ctx))
         as [[req resp] [e|]] eqn:HDo;
       [ rewrite !(performProxy_failed _ _ _ _ _ HDo)
       | rewrite !(performProxy_ok _ _ _ _ HDo) ]; go_simpl.
  all: intros Hshadow; rewrite Hshadow; go_simpl.
  all: eexists; split; [reflexivity |]; tauto.
Qed.

(** Why C5 needs [web.RespondError] to return an error: when it returns nil,
    [performProxy] returns nil after a failed backend call and the handler
    goes on to validate the answer [web.RespondError] has just written. *)
Theorem failed_proxy_goes_on_when_nil s ctx client matched converted req resp e :
  (forall c statusCode statusHeader, snd (RespondError c statusCode statusHeader) = None) ->
  route s = Some matched ->
  proxyPool s = inl client ->
  RequestValidation (cfg s) = web.ValidationDisable ->
  ResponseValidation (cfg s) <> web.ValidationDisable ->
  ConvertRequest ctx = inl converted ->
  Do client (ctx_Request ctx) (ctx_Response ctx) = (req, resp, Some e) ->
  In EvValidateResponse (trace (openapiWafHandler s ctx)).
Proof.
  intros Hnil Hroute Hpool Hrq Hrs Hconv HDo.
  pose proof (performProxy_failed _ _ _ _ _ HDo) as HP. cbv zeta in HP.
  rewrite Hnil in HP.
  handler_unfold. rewrite Hpool, Hroute, Hrq.
  destruct (ResponseValidation (cfg s)); [contradiction | |]; modes; go_simpl.
  all: rewrite Hconv; go_simpl; rewrite HP; go_simpl.
  all: repeat (rewrite ?respondError_eq; inner_case; go_simpl).
  all: rewrite ?respondError_eq; go_simpl.
  all: repeat first [left; reflexivity | right].
Qed.

End HandlerTheorems.

(** ** The handler on concrete requests *)

Section HandlerExamples.
#[local] Existing Instance ex_Domain.
#[local] Existing Instance ex_lib.


(** C8 as stated fails when the response mode is [ValidationBlock]: the
    request has an empty body and fails validation in [ValidationLog] mode,
    the backend answers 500, which the route does not document, and the
    client gets 403 with the diagnostic header instead of the backend's
    answer. *)
Lemma log_only_request_is_proxied_counterexample :
  RequestValidation
    (cfg (ex_waf (Some ex_route) (inl (ex_backend 500 ex_bytes2))
            (ex_cfg web.ValidationLog web.ValidationBlock true) None))
    = web.ValidationLog /\
  In (EvValidateRequest
        (Some (RequestError None true "value is required but missing" None)))
    (trace (openapiWafHandler
       (ex_waf (Some ex_route) (inl (ex_backend 500 ex_bytes2))
          (ex_cfg web.ValidationLog web.ValidationBlock true) None)
       (ex_ctx "POST" []))) /\
  In (EvClientDo None)
    (trace (openapiWafHandler
       (ex_waf (Some ex_route) (inl (ex_backend 500 ex_bytes2))
          (ex_cfg web.ValidationLog web.ValidationBlock true) None)
       (ex_ctx "POST" []))) /\
  snd (fst (Do (ex_backend 500 ex_bytes2) (ctx_Request (ex_ctx "POST" []))
              (ctx_Response (ex_ctx "POST" [])))) =
    {| StatusCode := 500;
       resp_ContentType := "application/json";
       resp_Fields := [("Content-Type", "application/json")];
       resp_Body := ex_bytes2 |} /\
  ctx_Response (final (openapiWafHandler
       (ex_waf (Some ex_route) (inl (ex_backend 500 ex_bytes2))
          (ex_cfg web.ValidationLog web.ValidationBlock true) None)
       (ex_ctx "POST" []))) =
    {| StatusCode := 403;
       resp_ContentType := "application/json";
       resp_Fields :=
         [("Content-Type", "application/json");
          ("APIFW-Validation-Status",
           "response-500-application/json:status is not supported:response");
          ("APIFW-Validation-Status",
           "response-500-application/json:status is not supported:response")];
       resp_Body := [] |}.
Proof.
  by_evaluation.
Qed.

(** The same request when the backend answers 200 with a valid body: the
    answer goes through although the response mode is [ValidationBlock]. *)
Lemma log_only_request_is_proxied_witness :
  final (openapiWafHandler
    (ex_waf (Some ex_route) (inl (ex_backend 200 ex_bytes2))
       (ex_cfg web.ValidationLog web.ValidationBlock true) None)
    (ex_ctx "POST" [])) =
    set_Response
      {| StatusCode := 200;
         resp_ContentType := "application/json";
         resp_Fields := [("Content-Type", "application/json")];
         resp_Body := ex_bytes2 |}
      (ex_ctx "POST" []) /\
  outcome (openapiWafHandler
    (ex_waf (Some ex_route) (inl (ex_backend 200 ex_bytes2))
       (ex_cfg web.ValidationLog web.ValidationBlock true) None)
    (ex_ctx "POST" [])) = Return None.
Proof.
  pose proof (log_only_request_is_proxied
    (ex_waf (Some ex_route) (inl (ex_backend 200 ex_bytes2))
       (ex_cfg web.ValidationLog web.ValidationBlock true) None)
    (ex_ctx "POST" []) (ex_backend 200 ex_bytes2) ex_route
    (ex_converted "POST")
    (RequestError None true "value is required but missing" None)
    (ctx_Request (ex_ctx "POST" []))
    {| StatusCode := 200;
       resp_ContentType := "application/json";
       resp_Fields := [("Content-Type", "application/json")];
       resp_Body := ex_bytes2 |}
    eq_refl eq_refl eq_refl eq_refl eq_refl eq_refl) as (_ & Hpass & _).
  apply Hpass. right. vm_compute. reflexivity.
Defined.



(** C4 as stated fails for an error with a reason of its own: the last
    field is the word [request-parameter], not the parameter's name [id],
    whatever is read as the reason. *)
Lemma getValidationHeader_parameter_counterexample :
  getValidationHeader (ex_ctx "GET" ex_bytes2)
    (RequestError (Some {| Name := "id" |}) false "boom" None) =
    Some "request-parameter:boom:request-parameter" /\
  (forall reason,
     getValidationHeader (ex_ctx "GET" ex_bytes2)
       (RequestError (Some {| Name := "id" |}) false "boom" None) <>
     Some ("request-parameter:" ++ reason ++ ":id")).
Proof.
  split; [reflexivity |].
  intros reason Heq. cbn in Heq. injection Heq as Heq.
  do 22 (destruct reason as [|? reason];
         [discriminate Heq | cbn in Heq; injection Heq as _ Heq]).
  destruct reason; discriminate Heq.
Qed.

Lemma getValidationHeader_parameter_witness :
  getValidationHeader (ex_ctx "GET" ex_bytes2)
    (RequestError (Some {| Name := "id" |}) false EmptyString
       (Some (SchemaError "bad"))) =
    Some "request-parameter:bad:id".
Proof.
  pose proof (getValidationHeader_parameter (ex_ctx "GET" ex_bytes2)
    {| Name := "id" |} false EmptyString (Some (SchemaError "bad")))
    as (_ & Hschema & _).
  apply (Hschema eq_refl "bad" eq_refl). discriminate.
Defined.

(** The slip in the log entry, and the handler going on after a failed
    backend call, on concrete requests. *)
Lemma shadow_check_logs_proxy_error_witness :
  exists err,
    outcome (run (performProxy (ex_backend 200 ex_bytes2)) (ex_ctx "GET" ex_bytes2))
      = Return err /\
    In (EvLog "Shadow API check error" err)
      (trace (openapiWafHandler
         (ex_waf None (inl (ex_backend 200 ex_bytes2))
            (ex_cfg web.ValidationLog web.ValidationDisable false)
            (Some (errorString "unknown endpoint")))
         (ex_ctx "GET" ex_bytes2))).
Proof.
  apply (shadow_check_logs_proxy_error
    (ex_waf None (inl (ex_backend 200 ex_bytes2))
       (ex_cfg web.ValidationLog web.ValidationDisable false)
       (Some (errorString "unknown endpoint")))
    (ex_ctx "GET" ex_bytes2) (ex_backend 200 ex_bytes2)
    (errorString "unknown endpoint")); try reflexivity; try discriminate.
  left. reflexivity.
Defined.

Lemma failed_proxy_goes_on_when_nil_witness :
  In EvValidateResponse
    (trace (openapiWafHandler
       (ex_waf (Some ex_route) (inl (ex_backend_down ErrDialTimeout))
          (ex_cfg web.ValidationDisable web.ValidationBlock false) None)
       (ex_ctx "GET" ex_bytes2))) /\
  StatusCode (ctx_Response (final (openapiWafHandler
       (ex_waf (Some ex_route) (inl (ex_backend_down ErrDialTimeout))
          (ex_cfg web.ValidationDisable web.ValidationBlock false) None)
       (ex_ctx "GET" ex_bytes2)))) = 403.
Proof.
  split.
  - apply (failed_proxy_goes_on_when_nil
      (ex_waf (Some ex_route) (inl (ex_backend_down ErrDialTimeout))
         (ex_cfg web.ValidationDisable web.ValidationBlock false) None)
      (ex_ctx "GET" ex_bytes2) (ex_backend_down ErrDialTimeout) ex_route
      (ex_converted "GET")
      (ctx_Request (ex_ctx "GET" ex_bytes2)) (ctx_Response (ex_ctx "GET" ex_bytes2))
      ErrDialTimeout); try reflexivity. discriminate.
  - reflexivity.
Defined.

End HandlerExamples.

Section TerminalExamples.
#[local] Existing Instance ex_Domain.
#[local] Existing Instance ex_lib_terminal.




End TerminalExamples.

(** * Further properties *)


(** ** Counting events *)

Lemma occurrences_nil kind : occurrences kind [] = 0%nat.
Proof. reflexivity. Qed.

Lemma occurrences_cons kind e t :
  occurrences kind (e :: t) =
    ((if kind e then 1 else 0) + occurrences kind t)%nat.
Proof. unfold occurrences. cbn [List.filter]. destruct (kind e); reflexivity. Qed.

Lemma occurrences_app kind a b :
  occurrences kind (a ++ b)%list = (occurrences kind a + occurrences kind b)%nat.
Proof. unfold occurrences. rewrite List.filter_app, length_app. reflexivity. Qed.

Lemma last_app_cons {A} (l l' : list A) (x d : A) :
  List.last (l ++ x :: l') d = List.last (x :: l') d.
Proof.
  induction l as [|a l IH]; [reflexivity |].
  cbn [app]. rewrite <- IH. destruct (l ++ x :: l')%list eqn:Heq; [| reflexivity].
  destruct l; discriminate Heq.
Qed.

Section CountingFacts.
Context `{Domain} `{!Library}.

(** [ValidateResponse] emits none of the handler's events. *)
Lemma occurrences_validator kind input parser :
  (forall e, kind e = true -> validator_event e = false) ->
  occurrences kind (trace (ValidateResponse input parser)) = 0%nat.
Proof.
  intros Hkind. pose proof (ValidateResponse_events input parser) as Hall.
  unfold occurrences.
  induction (trace (ValidateResponse input parser)) as [|e t IH]; [reflexivity |].
  cbn [forallb] in Hall. apply andb_prop in Hall as [He Ht].
  cbn [List.filter]. destruct (kind e) eqn:Hk.
  - rewrite (Hkind e Hk) in He. discriminate He.
  - apply IH. exact Ht.
Qed.

Lemma filter_validator kind input parser :
  (forall e, kind e = true -> validator_event e = false) ->
  List.filter kind (trace (ValidateResponse input parser)) = [].
Proof.
  intros Hkind. apply length_zero_iff_nil.
  apply (occurrences_validator kind input parser Hkind).
Qed.

End CountingFacts.


(** Counts the events of a kind in the trace of one path. *)
Ltac count_events :=
  unfold occurrences;
  repeat first
    [ progress cbn [List.filter length app Nat.add
                    is_ReadAll is_Close is_VisitJSON is_ClientDo is_PoolGet
                    is_PoolPut is_ParserGet is_ParserPut is_ValidateRequest
                    is_ValidateResponse is_ShadowCheck]
    | rewrite List.filter_app
    | rewrite filter_validator by (intros []; cbn; congruence)
    | rewrite length_app ].

(** The response validation of a matched route does not panic. *)
Ltac no_panic :=
  match goal with
  | Hpanic : outcome (ValidateResponse _ _) = Panic |- _ =>
      exfalso; revert Hpanic; apply ValidateResponse_no_panic; cbn; congruence
  end.


(** ** [ValidateResponse]: what it changes, reads and returns *)

Section ValidatorMore.
Context `{Domain} `{!Library}.

(** Of the input only the body can change, and it changes only when the
    body is read: a call with an empty trace leaves the input as it was. *)
Theorem ValidateResponse_frame input parser :
  set_Body (Body input) (final (ValidateResponse input parser)) = input /\
  (trace (ValidateResponse input parser) = [] ->
   final (ValidateResponse input parser) = input).
Proof.
  unfold ValidateResponse, ValidateResponse_body, validateResponseRef.
  go_paths;
    (split; [| intros Hnil; try discriminate Hnil ]);
    destruct input; cbn in *; simplify_eq; reflexivity.
Qed.

(** The body is read at most once, and a body that is read is closed
    exactly once, however the call ends. *)
Theorem ValidateResponse_reads_once input parser :
  (occurrences is_ReadAll (trace (ValidateResponse input parser)) <= 1)%nat /\
  occurrences is_Close (trace (ValidateResponse input parser)) =
    occurrences is_ReadAll (trace (ValidateResponse input parser)).
Proof.
  unfold ValidateResponse, ValidateResponse_body, validateResponseRef.
  go_paths; cbn; split; (reflexivity || lia).
Qed.

(** With [ExcludeResponseBody] set nothing is read, decoded or visited. *)
Theorem ValidateResponse_excluded_body input parser :
  ExcludeResponseBody (default DefaultOptions (input_Options input)) = true ->
  trace (ValidateResponse input parser) = [] /\
  final (ValidateResponse input parser) = input.
Proof.
  intros Hexclude.
  unfold ValidateResponse, ValidateResponse_body, validateResponseRef.
  go_unfold. rewrite !Hexclude.
  repeat (inner_case; go_simpl); split; reflexivity.
Qed.

(** Every error [ValidateResponse] returns is a [ResponseError]: one of three
    reasons without a wrapped error, before the body is read, or one of three
    reasons wrapping the error of the read, of the decoder or of the schema. *)
Theorem ValidateResponse_errors input parser err :
  outcome (ValidateResponse input parser) = Return (Some err) ->
  exists reason inner,
    err = ResponseError reason inner /\
    ((inner = None /\
      trace (ValidateResponse input parser) = [] /\
      (reason = "status is not supported" \/
       reason = "response has not been resolved" \/
       reason = "response header Content-Type has unexpected value: "
                ++ Quote (Header_Get (input_Header input) headerCT))) \/
     (exists e, inner = Some e /\
      (reason = "failed to read response body" \/
       reason = "failed to decode response body" \/
       reason = "response body doesn't match the schema"))).
Proof.
  unfold ValidateResponse, ValidateResponse_body, validateResponseRef.
  go_paths; intros Hout; try discriminate Hout; injection Hout as <-.
  all: eexists; eexists; split; [reflexivity |].
  all: try (left; repeat split; tauto).
  all: right; eexists; split; [first [eassumption | reflexivity] | tauto].
Qed.



(** A nil result means one of two things: nothing was read at all, or the
    body was read, put back, decoded and accepted by the schema, in that
    order. *)
Theorem ValidateResponse_success input parser :
  outcome (ValidateResponse input parser) = Return None ->
  trace (ValidateResponse input parser) = [] \/
  exists data,
    trace (ValidateResponse input parser) =
      [EvReadAll data None; EvSetBodyBytes data; EvDecodeBody data None;
       EvVisitJSON None; EvClose].
Proof.
  unfold ValidateResponse, ValidateResponse_body, validateResponseRef.
  go_paths; intros Hout; try discriminate Hout;
    first [ left; reflexivity
          | right; eexists;
            repeat match goal with H : _ = None |- _ => rewrite ?H end;
            reflexivity ].
Qed.

End ValidatorMore.


(** ** [getValidationHeader]: the shapes it encodes *)

Lemma append_cons (c : ascii) (s t : string) : String c s ++ t = String c (s ++ t).
Proof. reflexivity. Qed.

Lemma append_nil_l (s : string) : EmptyString ++ s = s.
Proof. reflexivity. Qed.

Lemma append_nil_r (s : string) : s ++ EmptyString = s.
Proof.
  induction s as [|c s IH]; [reflexivity |].
  rewrite append_cons, IH. reflexivity.
Qed.

Lemma append_assoc (a b c : string) : (a ++ b) ++ c = a ++ (b ++ c).
Proof.
  induction a as [|x a IH]; [reflexivity |].
  rewrite !append_cons, IH. reflexivity.
Qed.

Lemma length_append (a b : string) :
  String.length (a ++ b) = (String.length a + String.length b)%nat.
Proof.
  induction a as [|x a IH]; [reflexivity |].
  rewrite append_cons. cbn [String.length]. rewrite IH. reflexivity.
Qed.

(** [TrimSuffix] takes off a suffix that is there. *)
Lemma TrimSuffix_app (s suffix : string) : TrimSuffix (s ++ suffix) suffix = s.
Proof.
  induction s as [|c s IH].
  - rewrite append_nil_l. destruct suffix; cbn [TrimSuffix];
      rewrite String.eqb_refl; reflexivity.
  - rewrite append_cons. cbn [TrimSuffix].
    destruct (String.eqb (String c (s ++ suffix)) suffix) eqn:Heq.
    + apply String.eqb_eq in Heq. apply (f_equal String.length) in Heq.
      cbn [String.length] in Heq. rewrite length_append in Heq. lia.
    + rewrite IH. reflexivity.
Qed.

(** The loop [acc += key + ","] leaves the keys joined by commas, with one
    comma more at the end. *)
Lemma fold_left_commas (l : list string) (acc : string) :
  fold_left (fun acc key => acc ++ key ++ ",") l acc =
    acc ++ match l with
           | [] => EmptyString
           | _ => String.concat "," l ++ ","
           end.
Proof.
  revert acc. induction l as [|x l IH]; intros acc.
  - cbn [fold_left]. rewrite append_nil_r. reflexivity.
  - cbn [fold_left]. rewrite IH. destruct l as [|y l].
    + cbn [String.concat]. rewrite append_nil_r. reflexivity.
    + cbn [String.concat]. rewrite !append_assoc. reflexivity.
Qed.

Lemma TrimSuffix_commas (l : list string) :
  TrimSuffix (fold_left (fun acc key => acc ++ key ++ ",") l EmptyString) "," =
    String.concat "," l.
Proof.
  rewrite fold_left_commas, append_nil_l. destruct l as [|x l].
  - reflexivity.
  - apply TrimSuffix_app.
Qed.

(** What stands before the first semicolon: a prefix without a semicolon,
    followed by nothing or by a semicolon. *)
Lemma SplitHead_spec (s : string) :
  (forall c, In c (list_ascii_of_string (SplitHead s)) -> c <> ";"%char) /\
  (s = SplitHead s \/ exists rest, s = SplitHead s ++ ";" ++ rest).
Proof.
  induction s as [|c s [IHno IHsplit]].
  - split; [intros c [] | left; reflexivity].
  - cbn [SplitHead]. destruct (Ascii.eqb c ";") eqn:Hc.
    + apply Ascii.eqb_eq in Hc. subst c.
      split; [intros c [] | right; exists s; reflexivity].
    + apply Ascii.eqb_neq in Hc. split.
      * intros c' [<- | Hin]; [exact Hc | apply IHno; exact Hin].
      * destruct IHsplit as [Heq | [rest Heq]].
        -- left. rewrite <- Heq. reflexivity.
        -- right. exists rest. rewrite append_cons, <- Heq. reflexivity.
Qed.

Section EncoderMore.
Context `{Domain} `{!Library}.

(** No header is made for exactly these errors: a request error that names
    neither a parameter nor a body, and the errors that are none of the three
    validation error shapes. *)
Theorem getValidationHeader_none ctx err :
  getValidationHeader ctx err = None <->
  (exists reason inner, err = RequestError None false reason inner) \/
  err = ErrDialTimeout \/ err = ErrNoFreeConns \/
  (exists msg, err = errorString msg) \/
  (exists reason, err = SchemaError reason).
Proof.
  split.
  - destruct err as [ | |msg|reason|reason inner|[p|] [|] reason inner|reqs errs];
      cbn; intros Hnone; try discriminate Hnone; eauto 10.
    all: destruct (String.eqb reason EmptyString); discriminate Hnone.
  - intros [(reason & inner & ->) | [-> | [-> | [(msg & ->) | (reason & ->)]]]];
      reflexivity.
Qed.

(** A response error is encoded as [response-<status>-<type>:<reason>:response]
    where [<type>] is the response's content type cut before its first
    semicolon, so that it holds no semicolon, and [<reason>] is [unknown] for
    an error without a reason. *)
Theorem getValidationHeader_response ctx reason inner :
  let contentType := resp_ContentType (ctx_Response ctx) in
  exists base,
    getValidationHeader ctx (ResponseError reason inner) =
      Some ("response-" ++ FormatInt (StatusCode (ctx_Response ctx)) ++ "-" ++ base
            ++ ":" ++ (if String.eqb reason EmptyString then "unknown" else reason)
            ++ ":response") /\
    (forall c, In c (list_ascii_of_string base) -> c <> ";"%char) /\
    (contentType = base \/ exists rest, contentType = base ++ ";" ++ rest).
Proof.
  intros contentType. exists (SplitHead contentType).
  split; [| apply SplitHead_spec].
  unfold getValidationHeader, nonempty.
  destruct (String.eqb reason EmptyString); cbn [negb];
    rewrite !append_assoc; reflexivity.
Qed.

(** A request error that names the body and no parameter is encoded as
    [request-body-<type>:<reason>:request-body] where [<type>] is the
    request's content type cut before its first semicolon. *)
Theorem getValidationHeader_request_body ctx reason inner :
  let contentType := req_ContentType (ctx_Request ctx) in
  exists base,
    getValidationHeader ctx (RequestError None true reason inner) =
      Some ("request-body-" ++ base
            ++ ":" ++ (if String.eqb reason EmptyString then "unknown" else reason)
            ++ ":request-body") /\
    (forall c, In c (list_ascii_of_string base) -> c <> ";"%char) /\
    (contentType = base \/ exists rest, contentType = base ++ ";" ++ rest).
Proof.
  intros contentType. exists (SplitHead contentType).
  split; [| apply SplitHead_spec].
  unfold getValidationHeader, nonempty.
  destruct (String.eqb reason EmptyString); cbn [negb];
    rewrite !append_assoc; reflexivity.
Qed.

(** A security requirements error is encoded with the keys of all its
    requirements joined by commas, then the messages of its errors joined by
    commas, then the keys again; no comma is left at an end. *)
Theorem getValidationHeader_security ctx requirements errors :
  getValidationHeader ctx (SecurityRequirementsError requirements errors) =
    Some ("security-requirements-" ++ String.concat "," (List.concat requirements)
          ++ ":" ++ String.concat "," (List.map Error errors)
          ++ ":" ++ String.concat "," (List.concat requirements)).
Proof.
  unfold getValidationHeader.
  assert (forall acc,
    fold_left
      (fun acc scheme => fold_left (fun acc key => acc ++ key ++ ",") scheme acc)
      requirements acc =
    fold_left (fun acc key => acc ++ key ++ ",") (List.concat requirements) acc)
    as Hkeys.
  { induction requirements as [|scheme rest IH]; intros acc; cbn [fold_left List.concat].
    - reflexivity.
    - rewrite fold_left_app. apply IH. }
  assert (forall acc,
    fold_left (fun acc secError => acc ++ Error secError ++ ",") errors acc =
    fold_left (fun acc key => acc ++ key ++ ",") (List.map Error errors) acc)
    as Herrors.
  { induction errors as [|e rest IH]; intros acc; cbn [fold_left List.map].
    - reflexivity.
    - apply IH. }
  rewrite Hkeys, Herrors, !TrimSuffix_commas. reflexivity.
Qed.

End EncoderMore.

(** ** [AuthenticationFunc]: what it lets through *)

Section AuthenticationMore.
Context `{Domain} `{!Library}.

(** A scheme the function does not know is accepted: a type other than
    [http], [oauth2], [openIdConnect] and [apiKey], an [http] scheme other
    than [basic] and [bearer], an [apiKey] kept elsewhere than in a header,
    the query or a cookie. *)
Theorem AuthenticationFunc_unknown_scheme s input :
  let scheme := auth_SecurityScheme input in
  ~ In (ss_Type scheme) ["http"; "oauth2"; "openIdConnect"; "apiKey"] \/
  (ss_Type scheme = "http" /\ ~ In (ss_Scheme scheme) ["basic"; "bearer"]) \/
  (ss_Type scheme = "apiKey" /\ ~ In (ss_In scheme) ["header"; "query"; "cookie"]) ->
  AuthenticationFunc s input = None.
Proof.
  intros scheme Hunknown. unfold AuthenticationFunc. fold scheme.
  repeat match goal with
  | |- context [String.eqb ?a ?b] =>
      destruct (String.eqb_spec a b) as [? | ?]
  end; cbn [orb]; try reflexivity;
  exfalso; cbn [In] in Hunknown; intuition congruence.
Qed.

(** [http] with [basic] or [bearer]: the request passes exactly when its
    [Authorization] header is not empty and begins, whatever the case of its
    letters, with the scheme and a space; what follows is not looked at. *)
Theorem AuthenticationFunc_http s input scheme_name :
  ss_Type (auth_SecurityScheme input) = "http" ->
  ss_Scheme (auth_SecurityScheme input) = scheme_name ->
  scheme_name = "basic" \/ scheme_name = "bearer" ->
  let header :=
    Header_Get (req_Header (rvi_Request (auth_Request input))) "Authorization" in
  (AuthenticationFunc s input = None <->
   header <> EmptyString /\
   String.prefix (scheme_name ++ " ") (ToLower header) = true) /\
  (AuthenticationFunc s input <> None ->
   AuthenticationFunc s input =
     Some (errorString ("missing " ++ scheme_name ++ " authorization header"))).
Proof.
  intros Hty Hscheme Hname header. unfold AuthenticationFunc. fold header.
  rewrite Hty, Hscheme.
  destruct Hname as [-> | ->]; cbn -[String.prefix];
    destruct (String.eqb_spec header EmptyString) as [Hempty | Hempty];
    cbn -[String.prefix];
    try destruct (String.prefix _ (ToLower header));
    cbn; split; try (split; [intros Hnone | intros [Hne Hpre]]);
    try intros Hsome; try discriminate; try tauto; try reflexivity;
    try contradiction.
Qed.

(** [oauth2] and [openIdConnect]: the request passes exactly when a validator
    is configured and accepts the [Authorization] header for the scopes. *)
Theorem AuthenticationFunc_oauth2 s input :
  ss_Type (auth_SecurityScheme input) = "oauth2" \/
  ss_Type (auth_SecurityScheme input) = "openIdConnect" ->
  AuthenticationFunc s input = None <->
  exists Validate,
    oauthValidator s = Some Validate /\
    Validate
      (Header_Get (req_Header (rvi_Request (auth_Request input))) "Authorization")
      (Scopes input) = None.
Proof.
  intros Hty. unfold AuthenticationFunc.
  destruct Hty as [-> | ->]; cbn;
    (destruct (oauthValidator s) as [Validate|];
     [ destruct (Validate _ (Scopes input)) eqn:Hv | ]);
    split; try discriminate; try (intros (V & HV & Hnone)); simplify_eq;
    try congruence; eauto.
Qed.

(** [apiKey]: the request passes exactly when the key is there, in the
    header, the query or the cookies the scheme names; its value is not
    looked at. *)
Theorem AuthenticationFunc_apiKey s input :
  ss_Type (auth_SecurityScheme input) = "apiKey" ->
  let scheme := auth_SecurityScheme input in
  let req := rvi_Request (auth_Request input) in
  (ss_In scheme = "header" ->
   (AuthenticationFunc s input = None <->
    Header_Get (req_Header req) (ss_Name scheme) <> EmptyString)) /\
  (ss_In scheme = "query" ->
   (AuthenticationFunc s input = None <->
    Query_Get (req_URL req) (ss_Name scheme) <> EmptyString)) /\
  (ss_In scheme = "cookie" ->
   (AuthenticationFunc s input = None <-> Cookie req (ss_Name scheme) = None)).
Proof.
  intros Hty scheme req. subst scheme req. unfold AuthenticationFunc.
  rewrite Hty. cbn.
  split; [| split]; intros Hin; rewrite Hin; cbn.
  - destruct (String.eqb_spec
      (Header_Get (req_Header (rvi_Request (auth_Request input)))
         (ss_Name (auth_SecurityScheme input))) EmptyString) as [Heq | Hne].
    + split; [discriminate | contradiction].
    + split; [intros _; exact Hne | reflexivity].
  - destruct (String.eqb_spec
      (Query_Get (req_URL (rvi_Request (auth_Request input)))
         (ss_Name (auth_SecurityScheme input))) EmptyString) as [Heq | Hne].
    + split; [discriminate | contradiction].
    + split; [intros _; exact Hne | reflexivity].
  - destruct (Cookie (rvi_Request (auth_Request input))
                (ss_Name (auth_SecurityScheme input))).
    + split; discriminate.
    + split; reflexivity.
Qed.

End AuthenticationMore.

(** ** The input of the response validation *)

Lemma find_app_last {A} (f : A -> bool) (l : list A) (x : A) :
  List.find f (l ++ [x]) =
    match List.find f l with
    | Some y => Some y
    | None => if f x then Some x else None
    end.
Proof.
  induction l as [|a l IH]; cbn [app List.find].
  - reflexivity.
  - destruct (f a); [reflexivity | exact IH].
Qed.

Section InputMore.
Context `{Domain} `{!Library}.

(** The header [Set] builds from a list of fields: under a key stands the
    value of the last field filed under it. *)
Lemma Header_Set_fold (fields : list (string * string)) (h : Header) (key : string) :
  fold_left (fun h kv => Header_Set (fst kv) (snd kv) h) fields h
    !! CanonicalMIMEHeaderKey key =
  match List.find
          (fun kv => bool_decide (CanonicalMIMEHeaderKey (fst kv) = CanonicalMIMEHeaderKey key))
          (rev fields) with
  | Some kv => Some [snd kv]
  | None => h !! CanonicalMIMEHeaderKey key
  end.
Proof.
  revert h. induction fields as [|kv fields IH]; intros h; cbn [fold_left rev].
  - reflexivity.
  - rewrite IH, find_app_last.
    destruct (List.find _ (rev fields)); [reflexivity |].
    unfold Header_Set. case_bool_decide as Hkey.
    + rewrite Hkey, lookup_insert_eq. reflexivity.
    + rewrite lookup_insert_ne by exact Hkey. reflexivity.
Qed.

(** The header the response is validated with is made of the fields of the
    request: what [Get] answers for a key is the value of the last request
    field filed under it, the empty string when there is none, whatever the
    backend's answer holds. *)
Theorem response_is_validated_with_request_header rvi ctx key :
  Header_Get (input_Header (responseValidationInput rvi ctx)) key =
    match List.find
            (fun kv => bool_decide (CanonicalMIMEHeaderKey (fst kv) = CanonicalMIMEHeaderKey key))
            (rev (req_Fields (ctx_Request ctx))) with
    | Some kv => snd kv
    | None => EmptyString
    end.
Proof.
  unfold Header_Get, responseValidationInput. cbn [input_Header].
  rewrite Header_Set_fold.
  destruct (List.find _ _); [reflexivity |].
  rewrite lookup_empty. reflexivity.
Qed.

End InputMore.


(** ** The handler, path by path *)

Section HandlerByPathFacts.
Context `{Domain} `{!Library}.

Lemma performProxy_result client ctx :
  performProxy client ctx =
    (Next (fst (fst (proxy_result client ctx))), snd (fst (proxy_result client ctx)),
     snd (proxy_result client ctx)).
Proof.
  unfold proxy_result.
  destruct (Do client (ctx_Request ctx) (ctx_Response ctx)) as [[req resp] [e|]] eqn:HDo.
  - rewrite (performProxy_failed _ _ _ _ _ HDo). reflexivity.
  - rewrite (performProxy_ok _ _ _ _ HDo). reflexivity.
Qed.

Lemma openapiWafHandler_by_path s ctx :
  openapiWafHandler s ctx = handler_by_path s ctx.
Proof.
  unfold handler_by_path, matched_route, blocked, diagnostic, answered.
  destruct s as [rt pool [rq rs hdr code] ppl parser oauth shadow].
  cbn [cfg route proxyPool RequestValidation ResponseValidation
       AddValidationStatusHeader CustomBlockStatusCode parserPool shadowAPI].
  destruct pool as [client|perr].
  2:{ handler_unfold. rewrite respondError_eq. reflexivity. }
  pose proof (performProxy_result client ctx) as HP.
  destruct (proxy_result client ctx) as [[perr pctx] ptrace]. cbn [fst snd] in HP.
  destruct rq, rs; handler_unfold; modes; go_simpl;
    repeat (rewrite ?HP, ?respondError_eq; inner_case; go_simpl);
    rewrite ?HP, ?respondError_eq; go_simpl.
  all: repeat first [ rewrite <- app_assoc | rewrite app_nil_r | progress cbn [app] ];
    reflexivity.
Qed.

End HandlerByPathFacts.

(** ** The handler: what it acquires, calls and answers *)

(** One goal per path of the handler. *)
Ltac handler_expand :=
  rewrite !openapiWafHandler_by_path;
  unfold handler_by_path, matched_route, blocked, diagnostic, answered, proxy_result.

Ltac handler_split := repeat (inner_case; go_simpl); try no_panic.

Section HandlerProperties.
Context `{Domain} `{!Library}.

(** The handler never dereferences nil: it always ends by a [return].  An
    unmatched route never reaches the validators, whatever the two modes
    are, and a matched one gives [ValidateResponse] a route and a body. *)
Theorem handler_never_panics s ctx :
  exists err, outcome (openapiWafHandler s ctx) = Return err.
Proof. handler_expand. handler_split. all: eexists; reflexivity. Qed.

(** What the handler takes from a pool it gives back: the pool is asked once;
    a client it hands out is put back exactly once, as the last thing the
    handler does, and nothing is put back when it hands out none; a parser is
    taken at most once and put back as often as taken. *)
Theorem handler_releases_what_it_acquires s ctx :
  occurrences is_PoolGet (trace (openapiWafHandler s ctx)) = 1%nat /\
  occurrences is_PoolPut (trace (openapiWafHandler s ctx)) =
    match proxyPool s with inl _ => 1%nat | inr _ => 0%nat end /\
  (occurrences is_ParserGet (trace (openapiWafHandler s ctx)) <= 1)%nat /\
  occurrences is_ParserPut (trace (openapiWafHandler s ctx)) =
    occurrences is_ParserGet (trace (openapiWafHandler s ctx)) /\
  (forall client, proxyPool s = inl client ->
   List.last (trace (openapiWafHandler s ctx)) (EvPoolGet None) = EvPoolPut).
Proof.
  handler_expand. handler_split.
  all: split; [count_events; reflexivity |].
  all: split; [count_events; reflexivity |].
  all: split; [count_events; lia |].
  all: split; [count_events; reflexivity |].
  all: intros client' Hpool; try discriminate Hpool.
  all: rewrite <- ?app_assoc; cbn [app].
  all: first [ reflexivity | rewrite ?app_comm_cons, last_app_cons; reflexivity ].
Qed.


(** When a request reaches the backend: exactly when the pool hands out a
    client and either both modes are [ValidationDisable], or no route is
    matched and neither mode is [ValidationBlock], or a route is matched, the
    request can be converted and, in [ValidationBlock] request mode, passes
    the request validation. *)
Theorem backend_is_reached_iff s ctx :
  occurrences is_ClientDo (trace (openapiWafHandler s ctx)) = 1%nat <->
  exists client,
    proxyPool s = inl client /\
    ((RequestValidation (cfg s) = web.ValidationDisable /\
      ResponseValidation (cfg s) = web.ValidationDisable) \/
     (route s = None /\
      RequestValidation (cfg s) <> web.ValidationBlock /\
      ResponseValidation (cfg s) <> web.ValidationBlock) \/
     (route s <> None /\
      exists req,
        ConvertRequest ctx = inl req /\
        (RequestValidation (cfg s) = web.ValidationBlock ->
         ValidateRequest ctx (requestValidationInput s ctx req)
           (AuthenticationFunc s) (parserPool s) = None))).
Proof.
  handler_expand. handler_split.
  all: count_events.
  all: split.
  all: try (intros Hcount; discriminate Hcount).
  all: try (intros _; reflexivity).
  all: try (intros _; eexists; split; [reflexivity |];
            first [ left; split; congruence
                  | right; left; repeat split; congruence
                  | right; right; split; [congruence |];
                    eexists; split; [reflexivity |]; congruence ]).
  all: intros (client & Hpool
               & [[Hrq Hrs] | [(Hroute & Hrq & Hrs) | (Hroute & req & Hconv & Hval)]]).
  all: try congruence.
  all: simplify_eq.
  all: try (specialize (Hval eq_refl)); congruence.
Qed.

(** A request that does not reach the backend is answered through
    [web.RespondError], and the handler returns what that call returns: with
    503 when the pool hands out no client, with 400 when the request cannot
    be converted, both on the context as it came in and without a
    diagnostic, and with the configured block status code otherwise, which
    happens only with a mode set to [ValidationBlock]. *)
Theorem unreached_backend_is_answered s ctx :
  occurrences is_ClientDo (trace (openapiWafHandler s ctx)) = 0%nat ->
  exists c statusCode statusHeader,
    final (openapiWafHandler s ctx) = fst (RespondError c statusCode statusHeader) /\
    outcome (openapiWafHandler s ctx) =
      Return (snd (RespondError c statusCode statusHeader)) /\
    In (EvRespondError statusCode statusHeader) (trace (openapiWafHandler s ctx)) /\
    ((statusCode = fasthttp.StatusServiceUnavailable /\ statusHeader = None /\
      c = ctx /\ exists e, proxyPool s = inr e) \/
     (statusCode = fasthttp.StatusBadRequest /\ statusHeader = None /\
      c = ctx /\ exists e, ConvertRequest ctx = inr e) \/
     (statusCode = CustomBlockStatusCode (cfg s) /\
      (route s = None \/ RequestValidation (cfg s) = web.ValidationBlock) /\
      (RequestValidation (cfg s) = web.ValidationBlock \/
       ResponseValidation (cfg s) = web.ValidationBlock))).
Proof.
  handler_expand. handler_split.
  all: count_events; intros Hcount; try discriminate Hcount.
  all: eexists; eexists; eexists.
  all: split; [reflexivity |]; split; [reflexivity |].
  all: split; [rewrite ?in_app_iff; cbn [In]; tauto |].
  all: first
    [ left; repeat split; eexists; reflexivity
    | right; left; repeat split; eexists; reflexivity
    | right; right; split; [reflexivity |]; split; [tauto | tauto] ].
Qed.

(** A request that fails validation in [ValidationBlock] mode is not
    proxied and no response is validated: the handler answers through
    [web.RespondError] with the configured block status code and, when the
    status header is enabled and the error can be encoded, with the
    diagnostic, which it has first added to the header of the request. *)
Theorem blocked_request_is_not_proxied s ctx e :
  RequestValidation (cfg s) = web.ValidationBlock ->
  In (EvValidateRequest (Some e)) (trace (openapiWafHandler s ctx)) ->
  let vh :=
    if AddValidationStatusHeader (cfg s) then getValidationHeader ctx e else None in
  let marked :=
    match vh with
    | Some v => Request_Header_Add web.ValidationStatus v ctx
    | None => ctx
    end in
  let answer := RespondError marked (CustomBlockStatusCode (cfg s)) vh in
  final (openapiWafHandler s ctx) = fst answer /\
  outcome (openapiWafHandler s ctx) = Return (snd answer) /\
  occurrences is_ClientDo (trace (openapiWafHandler s ctx)) = 0%nat /\
  occurrences is_ValidateResponse (trace (openapiWafHandler s ctx)) = 0%nat.
Proof.
  intros Hrq. cbv zeta. handler_expand. rewrite Hrq. handler_split.
  all: intros Hin; in_cases Hin; simplify_eq.
  all: repeat split; count_events; reflexivity.
Qed.

(** Unless the response mode is [ValidationBlock], a backend call that
    succeeds decides the answer: the context holds exactly the request and
    response the call left and the handler returns nil, whatever the
    validators and the shadow API checker found. *)
Theorem transparent_unless_blocking s ctx :
  ResponseValidation (cfg s) <> web.ValidationBlock ->
  In (EvClientDo None) (trace (openapiWafHandler s ctx)) ->
  exists client rq rs,
    proxyPool s = inl client /\
    Do client (ctx_Request ctx) (ctx_Response ctx) = (rq, rs, None) /\
    final (openapiWafHandler s ctx) = set_Response rs (set_Request rq ctx) /\
    outcome (openapiWafHandler s ctx) = Return None.
Proof.
  intros Hrs. handler_expand. handler_split.
  all: try contradiction.
  all: intros Hin; in_cases Hin.
  all: eexists; eexists; eexists; split; [reflexivity |]; split; [eassumption |].
  all: split; reflexivity.
Qed.

(** In [ValidationBlock] response mode a response that fails validation is
    replaced: the handler answers through [web.RespondError] with the
    configured block status code on the context the proxy call left, to
    whose response header it has first added the diagnostic when one is
    made; the error is the one [ValidateResponse] returned for that
    context. *)
Theorem blocked_response_is_replaced s ctx client e :
  proxyPool s = inl client ->
  ResponseValidation (cfg s) = web.ValidationBlock ->
  In (EvLog "response validation error" (Some e)) (trace (openapiWafHandler s ctx)) ->
  let proxied := final (run (performProxy client) ctx) in
  let vh :=
    if AddValidationStatusHeader (cfg s)
    then getValidationHeader proxied e else None in
  let marked :=
    match vh with
    | Some v => Response_Header_Add web.ValidationStatus v proxied
    | None => proxied
    end in
  let answer := RespondError marked (CustomBlockStatusCode (cfg s)) vh in
  final (openapiWafHandler s ctx) = fst answer /\
  outcome (openapiWafHandler s ctx) = Return (snd answer) /\
  exists req,
    ConvertRequest ctx = inl req /\
    outcome (ValidateResponse
               (responseValidationInput (requestValidationInput s ctx req) proxied)
               (parserPool s)) = Return (Some e).
Proof.
  intros Hpool Hrs. cbv zeta. unfold run. rewrite performProxy_result.
  handler_expand. rewrite Hpool, Hrs. handler_split.
  all: intros Hin; in_cases Hin; simplify_eq.
  all: split; [reflexivity |]; split; [reflexivity |].
  all: eexists; split; [reflexivity | assumption].
Qed.

(** A redirect is never blocked, nor is the answer to a [HEAD] request: when
    the backend answers 301, 304, 307 or 308, or the converted request is a
    [HEAD], the answer goes through as the backend gave it in every response
    mode, and its body is not read. *)
Theorem redirect_is_never_blocked s ctx client rq rs :
  proxyPool s = inl client ->
  Do client (ctx_Request ctx) (ctx_Response ctx) = (rq, rs, None) ->
  In (StatusCode rs) [301; 304; 307; 308] \/
  (exists req, ConvertRequest ctx = inl req /\ Method req = "HEAD") ->
  In (EvClientDo None) (trace (openapiWafHandler s ctx)) ->
  final (openapiWafHandler s ctx) = set_Response rs (set_Request rq ctx) /\
  outcome (openapiWafHandler s ctx) = Return None /\
  forallb (fun ev => negb (validator_event ev)) (trace (openapiWafHandler s ctx)) = true.
Proof.
  intros Hpool HDo Hskip.
  assert (forall req, ConvertRequest ctx = inl req ->
    ValidateResponse
      (responseValidationInput (requestValidationInput s ctx req)
         (set_Response rs (set_Request rq ctx))) (parserPool s) =
    {| outcome := Return None;
       final := responseValidationInput (requestValidationInput s ctx req)
                  (set_Response rs (set_Request rq ctx));
       trace := [] |}) as Hearly.
  { intros req Hconv. apply ValidateResponse_early_return.
    apply orb_true_iff. destruct Hskip as [Hstatus | (req' & Hconv' & Hhead)].
    - right. apply never_validated_spec. exact Hstatus.
    - left. apply bool_decide_eq_true.
      rewrite Hconv in Hconv'. injection Hconv' as <-. exact Hhead. }
  handler_expand. rewrite Hpool, HDo.
  repeat (inner_case; go_simpl; rewrite ?(Hearly _ eq_refl); go_simpl).
  all: intros Hin; in_cases Hin.
  all: repeat split.
Qed.

(** An answer carries a diagnostic only when the status header is enabled
    and a mode is [ValidationBlock]; its status is then the configured block
    status code, and the diagnostic is the fixed text for an unmatched route
    or what [getValidationHeader] made of an error.  The answers 400, 502,
    503 and 504 never carry one. *)
Theorem diagnostic_only_when_blocking s ctx statusCode v :
  In (EvRespondError statusCode (Some v)) (trace (openapiWafHandler s ctx)) ->
  AddValidationStatusHeader (cfg s) = true /\
  statusCode = CustomBlockStatusCode (cfg s) /\
  (RequestValidation (cfg s) = web.ValidationBlock \/
   ResponseValidation (cfg s) = web.ValidationBlock) /\
  ((v = "request: route not found" /\ route s = None) \/
   exists c e, getValidationHeader c e = Some v).
Proof.
  handler_expand. handler_split.
  all: intros Hin; in_cases Hin; simplify_eq.
  all: split; [reflexivity |]; split; [reflexivity |]; split; [tauto |].
  all: first [ left; split; reflexivity | right; eexists; eexists; eassumption ].
Qed.

(** The header fields and the content type of the backend's answer play no
    part in the validation: on a matched route, unless the response mode is
    [ValidationBlock], two backends that leave the same request and answer
    with the same status and body make the handler do and return the same,
    log entries included. *)
Theorem response_headers_are_not_validated
    rt config ppl parser oauth shadow ctx client1 client2 rq rs1 rs2 :
  let s1 := {| route := rt; proxyPool := inl client1; cfg := config;
               pathParamLength := ppl; parserPool := parser;
               oauthValidator := oauth; shadowAPI := shadow |} in
  let s2 := {| route := rt; proxyPool := inl client2; cfg := config;
               pathParamLength := ppl; parserPool := parser;
               oauthValidator := oauth; shadowAPI := shadow |} in
  Do client1 (ctx_Request ctx) (ctx_Response ctx) = (rq, rs1, None) ->
  Do client2 (ctx_Request ctx) (ctx_Response ctx) = (rq, rs2, None) ->
  StatusCode rs1 = StatusCode rs2 ->
  resp_Body rs1 = resp_Body rs2 ->
  rt <> None ->
  ResponseValidation config <> web.ValidationBlock ->
  trace (openapiWafHandler s1 ctx) = trace (openapiWafHandler s2 ctx) /\
  outcome (openapiWafHandler s1 ctx) = outcome (openapiWafHandler s2 ctx).
Proof.
  intros s1 s2 HDo1 HDo2 Hstatus Hbody Hroute Hrs.
  assert (AuthenticationFunc s1 = AuthenticationFunc s2) as Hauth by reflexivity.
  assert (forall req, requestValidationInput s1 ctx req = requestValidationInput s2 ctx req)
    as Hrvi by reflexivity.
  assert (forall rvi,
    responseValidationInput rvi (set_Response rs1 (set_Request rq ctx)) =
    responseValidationInput rvi (set_Response rs2 (set_Request rq ctx))) as Hinput.
  { intros rvi. unfold responseValidationInput. cbn. rewrite Hstatus, Hbody. reflexivity. }
  subst s1 s2. handler_expand.
  cbn [cfg route proxyPool parserPool shadowAPI].
  rewrite HDo1, HDo2, Hauth.
  destruct rt as [matched|]; [| contradiction].
  repeat (rewrite ?Hinput, ?Hrvi; inner_case; go_simpl).
  all: try contradiction.
  all: split; reflexivity.
Qed.

End HandlerProperties.

(** ** The further properties on concrete inputs *)

Section FurtherValidatorExamples.
#[local] Existing Instance ex_Domain.
#[local] Existing Instance ex_lib.

(** The body is excluded by the options: the broken stream is not touched. *)
Lemma ValidateResponse_excluded_body_witness :
  trace (ValidateResponse ex_input_excluded tt) = [] /\
  final (ValidateResponse ex_input_excluded tt) = ex_input_excluded.
Proof.
  apply (ValidateResponse_excluded_body ex_input_excluded tt). reflexivity.
Defined.

(** A body of three bytes against the schema of two. *)
Lemma ValidateResponse_errors_witness :
  exists reason inner,
    ResponseError "response body doesn't match the schema"
      (Some (SchemaError "wrong length")) = ResponseError reason inner /\
    ((inner = None /\
      trace (ValidateResponse (ex_input "GET" 200 (NopCloser ex_bytes3) false) tt) = [] /\
      (reason = "status is not supported" \/
       reason = "response has not been resolved" \/
       reason = "response header Content-Type has unexpected value: "
                ++ Quote (Header_Get
                            (input_Header (ex_input "GET" 200 (NopCloser ex_bytes3) false))
                            headerCT))) \/
     (exists e, inner = Some e /\
      (reason = "failed to read response body" \/
       reason = "failed to decode response body" \/
       reason = "response body doesn't match the schema"))).
Proof.
  apply (ValidateResponse_errors (ex_input "GET" 200 (NopCloser ex_bytes3) false) tt).
  vm_compute. reflexivity.
Defined.



(** A body of two bytes, which the schema accepts. *)
Lemma ValidateResponse_success_witness :
  trace (ValidateResponse (ex_input "GET" 200 (NopCloser ex_bytes2) false) tt) = [] \/
  exists data,
    trace (ValidateResponse (ex_input "GET" 200 (NopCloser ex_bytes2) false) tt) =
      [EvReadAll data None; EvSetBodyBytes data; EvDecodeBody data None;
       EvVisitJSON None; EvClose].
Proof.
  apply (ValidateResponse_success (ex_input "GET" 200 (NopCloser ex_bytes2) false) tt).
  vm_compute. reflexivity.
Defined.

(** A scheme of a type the function does not know. *)
Lemma AuthenticationFunc_unknown_scheme_witness :
  AuthenticationFunc ex_waf_oauth
    (ex_auth (ex_scheme "mutualTLS" EmptyString EmptyString EmptyString) EmptyString)
    = None.
Proof.
  apply (AuthenticationFunc_unknown_scheme ex_waf_oauth
    (ex_auth (ex_scheme "mutualTLS" EmptyString EmptyString EmptyString) EmptyString)).
  left. cbn. intuition discriminate.
Defined.

(** A bearer scheme: any header that begins with [bearer ] passes, another
    one is refused. *)
Lemma AuthenticationFunc_http_witness :
  AuthenticationFunc ex_waf_oauth
    (ex_auth (ex_scheme "http" "bearer" EmptyString EmptyString) "bearer anything")
    = None /\
  AuthenticationFunc ex_waf_oauth
    (ex_auth (ex_scheme "http" "bearer" EmptyString EmptyString) "token abc")
    = Some (errorString "missing bearer authorization header").
Proof.
  split.
  - apply (AuthenticationFunc_http ex_waf_oauth
      (ex_auth (ex_scheme "http" "bearer" EmptyString EmptyString) "bearer anything")
      "bearer" eq_refl eq_refl (or_intror eq_refl)).
    split; vm_compute; [discriminate | reflexivity].
  - apply (AuthenticationFunc_http ex_waf_oauth
      (ex_auth (ex_scheme "http" "bearer" EmptyString EmptyString) "token abc")
      "bearer" eq_refl eq_refl (or_intror eq_refl)).
    vm_compute. discriminate.
Defined.

(** The token the validator knows. *)
Lemma AuthenticationFunc_oauth2_witness :
  AuthenticationFunc ex_waf_oauth
    (ex_auth (ex_scheme "oauth2" EmptyString EmptyString EmptyString) "Bearer token")
    = None.
Proof.
  apply (AuthenticationFunc_oauth2 ex_waf_oauth
    (ex_auth (ex_scheme "oauth2" EmptyString EmptyString EmptyString) "Bearer token")
    (or_introl eq_refl)).
  eexists. split; reflexivity.
Defined.

(** A key kept in the header [Authorization]. *)
Lemma AuthenticationFunc_apiKey_witness :
  AuthenticationFunc ex_waf_oauth
    (ex_auth (ex_scheme "apiKey" EmptyString "header" "Authorization") "secret")
    = None.
Proof.
  pose proof (AuthenticationFunc_apiKey ex_waf_oauth
    (ex_auth (ex_scheme "apiKey" EmptyString "header" "Authorization") "secret")
    eq_refl) as (Hheader & _ & _).
  apply (Hheader eq_refl). vm_compute. discriminate.
Defined.

End FurtherValidatorExamples.

Section FurtherHandlerExamples.
#[local] Existing Instance ex_Domain.
#[local] Existing Instance ex_lib.

(** No client in the pool: 503, on the context as it came in. *)
Lemma unreached_backend_is_answered_witness :
  occurrences is_ClientDo
    (trace (openapiWafHandler
              (ex_waf (Some ex_route) (inr ErrNoFreeConns)
                 (ex_cfg web.ValidationLog web.ValidationLog true) None)
              (ex_ctx "GET" ex_bytes2))) = 0%nat /\
  final (openapiWafHandler
           (ex_waf (Some ex_route) (inr ErrNoFreeConns)
              (ex_cfg web.ValidationLog web.ValidationLog true) None)
           (ex_ctx "GET" ex_bytes2)) =
    fst (RespondError (ex_ctx "GET" ex_bytes2) fasthttp.StatusServiceUnavailable None) /\
  outcome (openapiWafHandler
             (ex_waf (Some ex_route) (inr ErrNoFreeConns)
                (ex_cfg web.ValidationLog web.ValidationLog true) None)
             (ex_ctx "GET" ex_bytes2)) =
    Return (snd (RespondError (ex_ctx "GET" ex_bytes2)
                   fasthttp.StatusServiceUnavailable None)).
Proof.
  assert (occurrences is_ClientDo
    (trace (openapiWafHandler
              (ex_waf (Some ex_route) (inr ErrNoFreeConns)
                 (ex_cfg web.ValidationLog web.ValidationLog true) None)
              (ex_ctx "GET" ex_bytes2))) = 0%nat) as Hnone.
  { vm_compute. reflexivity. }
  split; [exact Hnone |].
  destruct (unreached_backend_is_answered
    (ex_waf (Some ex_route) (inr ErrNoFreeConns)
       (ex_cfg web.ValidationLog web.ValidationLog true) None)
    (ex_ctx "GET" ex_bytes2) Hnone)
    as (c & statusCode & statusHeader & Hfinal & Hout & _ & Hcases).
  destruct Hcases as [(-> & -> & -> & _) | [(_ & _ & _ & e & He) | (_ & _ & Hblock)]].
  - split; [exact Hfinal | exact Hout].
  - discriminate He.
  - destruct Hblock as [Hblock | Hblock]; discriminate Hblock.
Defined.

(** A request without a body in [ValidationBlock] request mode: 403, and the
    backend is not called. *)
Lemma blocked_request_is_not_proxied_witness :
  StatusCode (ctx_Response (final (openapiWafHandler
    (ex_waf (Some ex_route) (inl (ex_backend 200 ex_bytes2))
       (ex_cfg web.ValidationBlock web.ValidationDisable true) None)
    (ex_ctx "POST" [])))) = 403 /\
  occurrences is_ClientDo (trace (openapiWafHandler
    (ex_waf (Some ex_route) (inl (ex_backend 200 ex_bytes2))
       (ex_cfg web.ValidationBlock web.ValidationDisable true) None)
    (ex_ctx "POST" []))) = 0%nat.
Proof.
  assert (In (EvValidateRequest
                (Some (RequestError None true "value is required but missing" None)))
    (trace (openapiWafHandler
      (ex_waf (Some ex_route) (inl (ex_backend 200 ex_bytes2))
         (ex_cfg web.ValidationBlock web.ValidationDisable true) None)
      (ex_ctx "POST" [])))) as Hin.
  { vm_compute. tauto. }
  pose proof (blocked_request_is_not_proxied
    (ex_waf (Some ex_route) (inl (ex_backend 200 ex_bytes2))
       (ex_cfg web.ValidationBlock web.ValidationDisable true) None)
    (ex_ctx "POST" []) _ eq_refl Hin) as (Hfinal & _ & Hnone & _).
  split; [rewrite Hfinal; reflexivity | exact Hnone].
Defined.

(** Both modes [ValidationLog], a backend that answers an undocumented 500
    with a body the schema refuses: the answer goes through. *)
Lemma transparent_unless_blocking_witness :
  exists client rq rs,
    proxyPool (ex_waf (Some ex_route) (inl (ex_backend 500 ex_bytes3))
                 (ex_cfg web.ValidationLog web.ValidationLog true) None) = inl client /\
    Do client (ctx_Request (ex_ctx "GET" ex_bytes2)) (ctx_Response (ex_ctx "GET" ex_bytes2))
      = (rq, rs, None) /\
    final (openapiWafHandler
             (ex_waf (Some ex_route) (inl (ex_backend 500 ex_bytes3))
                (ex_cfg web.ValidationLog web.ValidationLog true) None)
             (ex_ctx "GET" ex_bytes2)) =
      set_Response rs (set_Request rq (ex_ctx "GET" ex_bytes2)) /\
    outcome (openapiWafHandler
               (ex_waf (Some ex_route) (inl (ex_backend 500 ex_bytes3))
                  (ex_cfg web.ValidationLog web.ValidationLog true) None)
               (ex_ctx "GET" ex_bytes2)) = Return None.
Proof.
  apply (transparent_unless_blocking
    (ex_waf (Some ex_route) (inl (ex_backend 500 ex_bytes3))
       (ex_cfg web.ValidationLog web.ValidationLog true) None)
    (ex_ctx "GET" ex_bytes2)).
  - vm_compute. discriminate.
  - vm_compute. tauto.
Defined.

(** The same backend answering 200 in [ValidationBlock] response mode: the
    client gets 403 and no body. *)
Lemma blocked_response_is_replaced_witness :
  StatusCode (ctx_Response (final (openapiWafHandler
    (ex_waf (Some ex_route) (inl (ex_backend 200 ex_bytes3))
       (ex_cfg web.ValidationLog web.ValidationBlock true) None)
    (ex_ctx "GET" ex_bytes2)))) = 403 /\
  resp_Body (ctx_Response (final (openapiWafHandler
    (ex_waf (Some ex_route) (inl (ex_backend 200 ex_bytes3))
       (ex_cfg web.ValidationLog web.ValidationBlock true) None)
    (ex_ctx "GET" ex_bytes2)))) = [].
Proof.
  assert (In (EvLog "response validation error"
                (Some (ResponseError "response body doesn't match the schema"
                         (Some (SchemaError "wrong length")))))
    (trace (openapiWafHandler
      (ex_waf (Some ex_route) (inl (ex_backend 200 ex_bytes3))
         (ex_cfg web.ValidationLog web.ValidationBlock true) None)
      (ex_ctx "GET" ex_bytes2)))) as Hin.
  { vm_compute. tauto. }
  pose proof (blocked_response_is_replaced
    (ex_waf (Some ex_route) (inl (ex_backend 200 ex_bytes3))
       (ex_cfg web.ValidationLog web.ValidationBlock true) None)
    (ex_ctx "GET" ex_bytes2) (ex_backend 200 ex_bytes3) _
    eq_refl eq_refl Hin) as (Hfinal & _ & _).
  rewrite Hfinal. split; reflexivity.
Defined.

(** A 301 with a body the schema would refuse, both modes
    [ValidationBlock]. *)
Lemma redirect_is_never_blocked_witness :
  final (openapiWafHandler
    (ex_waf (Some ex_route) (inl (ex_backend 301 ex_bytes3))
       (ex_cfg web.ValidationBlock web.ValidationBlock true) None)
    (ex_ctx "GET" ex_bytes2)) =
    set_Response
      {| StatusCode := 301;
         resp_ContentType := "application/json";
         resp_Fields := [("Content-Type", "application/json")];
         resp_Body := ex_bytes3 |}
      (set_Request (ctx_Request (ex_ctx "GET" ex_bytes2)) (ex_ctx "GET" ex_bytes2)) /\
  outcome (openapiWafHandler
    (ex_waf (Some ex_route) (inl (ex_backend 301 ex_bytes3))
       (ex_cfg web.ValidationBlock web.ValidationBlock true) None)
    (ex_ctx "GET" ex_bytes2)) = Return None /\
  forallb (fun ev => negb (validator_event ev))
    (trace (openapiWafHandler
      (ex_waf (Some ex_route) (inl (ex_backend 301 ex_bytes3))
         (ex_cfg web.ValidationBlock web.ValidationBlock true) None)
      (ex_ctx "GET" ex_bytes2))) = true.
Proof.
  apply (redirect_is_never_blocked
    (ex_waf (Some ex_route) (inl (ex_backend 301 ex_bytes3))
       (ex_cfg web.ValidationBlock web.ValidationBlock true) None)
    (ex_ctx "GET" ex_bytes2) (ex_backend 301 ex_bytes3)
    (ctx_Request (ex_ctx "GET" ex_bytes2))
    {| StatusCode := 301;
       resp_ContentType := "application/json";
       resp_Fields := [("Content-Type", "application/json")];
       resp_Body := ex_bytes3 |}
    eq_refl eq_refl).
  - left. vm_compute. tauto.
  - vm_compute. tauto.
Defined.

(** The diagnostic of a blocked response. *)
Lemma diagnostic_only_when_blocking_witness :
  In (EvRespondError 403
        (Some "response-200-application/json:response body doesn't match the schema:response"))
    (trace (openapiWafHandler
              (ex_waf (Some ex_route) (inl (ex_backend 200 ex_bytes3))
                 (ex_cfg web.ValidationLog web.ValidationBlock true) None)
              (ex_ctx "GET" ex_bytes2))) /\
  exists c e,
    getValidationHeader c e =
      Some "response-200-application/json:response body doesn't match the schema:response".
Proof.
  assert (In (EvRespondError 403
        (Some "response-200-application/json:response body doesn't match the schema:response"))
    (trace (openapiWafHandler
              (ex_waf (Some ex_route) (inl (ex_backend 200 ex_bytes3))
                 (ex_cfg web.ValidationLog web.ValidationBlock true) None)
              (ex_ctx "GET" ex_bytes2)))) as Hin.
  { vm_compute. tauto. }
  split; [exact Hin |].
  destruct (diagnostic_only_when_blocking _ _ _ _ Hin)
    as (_ & _ & _ & [[Hfixed _] | Hencoded]).
  - discriminate Hfixed.
  - exact Hencoded.
Defined.

(** Two backends that answer 200 with the same three bytes, one as JSON with
    a header field, one as plain text without any. *)
Lemma response_headers_are_not_validated_witness :
  trace (openapiWafHandler
    (ex_waf (Some ex_route) (inl (ex_backend 200 ex_bytes3))
       (ex_cfg web.ValidationLog web.ValidationLog true) None)
    (ex_ctx "GET" ex_bytes2)) =
  trace (openapiWafHandler
    (ex_waf (Some ex_route) (inl (ex_backend_plain 200 ex_bytes3))
       (ex_cfg web.ValidationLog web.ValidationLog true) None)
    (ex_ctx "GET" ex_bytes2)) /\
  outcome (openapiWafHandler
    (ex_waf (Some ex_route) (inl (ex_backend 200 ex_bytes3))
       (ex_cfg web.ValidationLog web.ValidationLog true) None)
    (ex_ctx "GET" ex_bytes2)) =
  outcome (openapiWafHandler
    (ex_waf (Some ex_route) (inl (ex_backend_plain 200 ex_bytes3))
       (ex_cfg web.ValidationLog web.ValidationLog true) None)
    (ex_ctx "GET" ex_bytes2)).
Proof.
  apply (response_headers_are_not_validated
    (Some ex_route) (ex_cfg web.ValidationLog web.ValidationLog true) 0 tt None
    (fun _ => None) (ex_ctx "GET" ex_bytes2)
    (ex_backend 200 ex_bytes3) (ex_backend_plain 200 ex_bytes3)
    (ctx_Request (ex_ctx "GET" ex_bytes2))
    {| StatusCode := 200;
       resp_ContentType := "application/json";
       resp_Fields := [("Content-Type", "application/json")];
       resp_Body := ex_bytes3 |}
    {| StatusCode := 200;
       resp_ContentType := "text/plain";
       resp_Fields := [];
       resp_Body := ex_bytes3 |}
    eq_refl eq_refl eq_refl eq_refl); discriminate.
Defined.

End FurtherHandlerExamples.
